(** * The record cleansing and partitioning engine of [main.py]

    A shallow embedding of [DataCleaner] (src/main.py): the field
    normalisers [parse_genres] and [parse_track_ids], the normalising and
    de-duplicating step [clean_data], the sink writers
    [insert_to_database] and [create_backup_files], the loader [read_csv]
    and the driver [run_pipeline], followed by the properties of the
    specification that are settled against them.

    Python text is a sequence of Unicode code points; a pandas cell is a
    tagged value; a DataFrame is a mutable object living in a heap, so
    that in-place column assignment is visible to every holder of the
    reference.  What the interpreter and its libraries compute outside the
    repository (Unicode upper-casing, [ast.literal_eval], the date parser
    behind [pd.to_datetime], [int] on text, [repr] of a float) is
    gathered in the interface [PyLib]. *)

From Stdlib Require Import ZArith NArith Ascii String DecimalString.
From stdpp Require Import gmap strings list.

Set Warnings "-register-all".
Open Scope N_scope.

(** ** Python text *)

Module PyStr.

(** A Python [str]: its code points, in order. *)
Abbreviation pystr := (list N).

(** An ASCII source literal as Python text. *)
Definition lit (s : string) : pystr := N_of_ascii <$> list_ascii_of_string s.

Definition in_range (lo hi c : N) : bool := (lo <=? c) && (c <=? hi).

(** [str.isspace] on one code point: the characters [str.strip()]
    removes when called without argument. *)
Definition isspace (c : N) : bool :=
  in_range 9 13 c || in_range 28 32 c || (c =? 133) || (c =? 160)
  || (c =? 5760) || in_range 8192 8202 c || (c =? 8232) || (c =? 8233)
  || (c =? 8239) || (c =? 8287) || (c =? 12288).

Fixpoint lstrip (s : pystr) : pystr :=
  match s with
  | [] => []
  | c :: s' => if isspace c then lstrip s' else s
  end.

Definition rstrip (s : pystr) : pystr := reverse (lstrip (reverse s)).

(** [s.strip()] *)
Definition strip (s : pystr) : pystr := rstrip (lstrip s).

(** [s.split(sep)] for a one-character separator: never empty. *)
Fixpoint split (sep : N) (s : pystr) : list pystr :=
  match s with
  | [] => [[]]
  | c :: s' =>
      if c =? sep then [] :: split sep s'
      else match split sep s' with
           | t :: ts => (c :: t) :: ts
           | [] => [[c]]
           end
  end.

(** [sep in s] *)
Definition contains (sep : N) (s : pystr) : bool := existsb (N.eqb sep) s.

(** [s.startswith(c)] and [s.endswith(c)], [c] one character. *)
Definition startswith (c : N) (s : pystr) : bool :=
  match s with
  | c' :: _ => c' =? c
  | [] => false
  end.

Definition endswith (c : N) (s : pystr) : bool := startswith c (reverse s).

(** [s.encode('ascii', errors='ignore').decode('ascii')]: code points
    outside 7-bit ASCII are dropped. *)
Definition ascii_clean (s : pystr) : pystr := filter (λ c, c < 128) s.

(** Truth value of a text: non-empty. *)
Definition truthy (s : pystr) : bool :=
  match s with
  | [] => false
  | _ => true
  end.

Definition comma : N := 44.
Definition lbracket : N := 91.
Definition rbracket : N := 93.
Definition newline : N := 10.

(** [str(n)] for an integer. *)
Definition of_Z (z : Z) : pystr := lit (NilZero.string_of_int (Z.to_int z)).

End PyStr.
Import PyStr.

(** ** Cells, log records, exceptions *)

(** A value held in a DataFrame cell.  A finite float is the dyadic
    number [m * 2^e]; the missing value ([NaN], [None], [NaT]) is one
    constructor, as pandas treats all of them alike in [notna] and in
    [duplicated]. *)
Inductive cell :=
| NaN
| CBool (b : bool)
| CInt (z : Z)
| CFloat (m e : Z)
| CInf (negative : bool)
| CStr (s : pystr)
| CList (l : list pystr).

#[global] Instance cell_eq_dec : EqDecision cell.
Proof. solve_decision. Defined.

#[global] Instance cell_inhabited : Inhabited cell := populate NaN.

(** [pd.notna(x)] on a scalar. *)
Definition notna (x : cell) : bool :=
  match x with
  | NaN => false
  | _ => true
  end.

Inductive exn :=
| FileNotFoundError
| EmptyDataError
| ParserError
| OperationalError
| IntegrityError
| KeyError (column : string)
| AttributeError
| TypeError
| ValueError
| SyntaxError
| OverflowError
| MemoryError
| RecursionError.

#[global] Instance exn_eq_dec : EqDecision exn.
Proof. solve_decision. Defined.

Inductive result (A : Type) :=
| Ok (a : A)
| Raise (e : exn).
Arguments Ok {A} a.
Arguments Raise {A} e.

Inductive level := INFO | WARNING | ERROR.

(** The log messages of [main.py], one constructor per format string,
    carrying the values the string interpolates. *)
Inductive message :=
| MsgGenresEvalFailed (x : pystr) (e : exn)
| MsgInvalidTrackIds (shown : list pystr) (and_more : bool)
| MsgInvalidDates (n : nat) (ids_dates : list (cell * cell))
| MsgCleanRecords (n : nat)
| MsgDuplicateRecords (n : nat)
| MsgReadCsv (path : pystr)
| MsgReadCsvFallback (path : pystr)
| MsgUtf8Failed
| MsgTotalRows (n : nat)
| MsgInserted (n : nat) (table : string)
| MsgCreatedFile (path : pystr)
| MsgTableCount (table : string) (n : nat)
| MsgText (text : string)
| MsgFailed (where_ : string) (e : exn).

Definition log_entry : Type := level * message.

#[global] Instance message_eq_dec : EqDecision message.
Proof. solve_decision. Defined.

#[global] Instance level_eq_dec : EqDecision level.
Proof. solve_decision. Defined.

(** ** The interpreter and library interface *)

(** What [ast.literal_eval] makes of a text. *)
Inductive pyobj :=
| ObjStr (s : pystr)
| ObjOther (shown : pystr).   (* any other literal, with its [str()] *)

Inductive eval_outcome :=
| EvalList (items : list pyobj)
| EvalNotList
| EvalFail (e : exn)     (* [SyntaxError] or [ValueError] *)
| EvalRaise (e : exn).   (* [TypeError], [MemoryError], [RecursionError] *)

Record Timestamp := { year : Z; month : Z; day : Z }.

Class PyLib := {
  (** [str.upper] *)
  str_upper : pystr → pystr;
  (** [ast.literal_eval] *)
  literal_eval : pystr → eval_outcome;
  (** the parser behind [pd.to_datetime(column, dayfirst=...)]: what an
      element of the column parses to, given the whole column (the format
      is inferred from it); [None] when it does not parse or is missing *)
  parse_datetime : bool → list cell → cell → option Timestamp;
  (** [int(s)] on text; [None] is [ValueError] *)
  int_of_text : pystr → option Z;
  (** [repr] of the finite float [m * 2^e] *)
  float_repr : Z → Z → pystr;
  (** [repr] of a text: its quoting and escaping *)
  str_repr : pystr → pystr;
}.

(** [str(item)] *)
Definition obj_str (o : pyobj) : pystr :=
  match o with
  | ObjStr s => s
  | ObjOther shown => shown
  end.

(** ** Functions that log *)

(** A computation that returns or raises, with the records it logged. *)
Definition W (A : Type) : Type := result A * list log_entry.

#[global] Instance result_ret : MRet result := λ A a, Ok a.
#[global] Instance result_bind : MBind result := λ A B f r,
  match r with
  | Ok a => f a
  | Raise e => Raise e
  end.

#[global] Instance W_ret : MRet W := λ A a, (Ok a, []).
#[global] Instance W_bind : MBind W := λ A B f m,
  match m with
  | (Ok a, l) => let '(r, l') := f a in (r, l ++ l')
  | (Raise e, l) => (Raise e, l)
  end.

(** [logger.warning(...)] *)
Definition warning (msg : message) : W unit := (Ok (), [(WARNING, msg)]).

Definition quiet {A : Type} (r : result A) : W A := (r, []).

(** [series.apply(f)]: element by element, in order; the first
    exception ends it. *)
Fixpoint series_apply {A : Type} (f : cell → W A) (xs : list cell) : W (list A) :=
  match xs with
  | [] => mret []
  | x :: xs' => y ← f x; ys ← series_apply f xs'; mret (y :: ys)
  end.

(** ** Field normalisers *)

Section Normalizer.
Context `{PyLib}.

(** The comma-split path of [parse_genres]:
    [[item.strip().encode('ascii', errors='ignore').decode('ascii')
      for item in x.split(',') if item.strip()]] *)
Definition split_genres (x : pystr) : list pystr :=
  (λ item, ascii_clean (strip item))
    <$> filter (λ item, truthy (strip item) = true) (split comma x).

(** [DataCleaner.parse_genres] *)
Definition parse_genres (x : cell) : W (list pystr) :=
  match x with
  | CStr x =>
      if truthy (strip x) then
        if startswith lbracket x && endswith rbracket x then
          match literal_eval x with
          | EvalList val =>
              mret ((λ item, ascii_clean (strip (obj_str item))) <$> val)
          | EvalNotList => mret (split_genres x)
          | EvalFail e =>
              warning (MsgGenresEvalFailed x e);;
              mret (split_genres x)
          | EvalRaise e => quiet (Raise e)
          end
        else mret (split_genres x)
      else mret []
  | _ => mret []
  end.

Definition is_alnum (c : N) : bool :=
  in_range 97 122 c || in_range 65 90 c || in_range 48 57 c.

(** [re.compile(r'^[a-zA-Z0-9]{22}$').match(item)]: twenty-two
    characters of the class, then the end of the text or a newline that
    ends it (what [$] accepts). *)
Definition id_pattern_match (item : pystr) : bool :=
  forallb is_alnum (take 22 item)
  && (length (take 22 item) =? 22)%nat
  && match drop 22 item with
     | [] => true
     | [c] => c =? newline
     | _ => false
     end.

(** The [for item in items] loop: the valid items (ASCII-cleaned) and
    the invalid items, each in order. *)
Fixpoint classify_items (items : list pystr) : list pystr * list pystr :=
  match items with
  | [] => ([], [])
  | item :: rest =>
      let '(valid_items, invalid_items) := classify_items rest in
      if truthy item && id_pattern_match item
      then (ascii_clean item :: valid_items, invalid_items)
      else (valid_items, item :: invalid_items)
  end.

(** [DataCleaner.parse_track_ids] *)
Definition parse_track_ids (x : cell) : W (list pystr) :=
  match x with
  | CStr x =>
      if truthy (strip x) then
        let items :=
          if contains comma x then strip <$> split comma x else [strip x] in
        let '(valid_items, invalid_items) := classify_items items in
        match invalid_items with
        | [] => mret ()
        | _ => warning (MsgInvalidTrackIds (take 5 invalid_items)
                          (bool_decide (5 < length invalid_items)%nat))
        end;;
        mret valid_items
      else mret []
  | _ => mret []
  end.

(** What the specification calls a valid identifier: exactly 22
    characters, all of them ASCII letters or digits. *)
Definition is_track_id (s : pystr) : bool :=
  (length s =? 22)%nat && forallb is_alnum s.

End Normalizer.

(** ** DataFrames *)

Inductive dtype := DObject | DInt64 | DFloat64 | DBool.

#[global] Instance dtype_eq_dec : EqDecision dtype.
Proof. solve_decision. Defined.

(** A DataFrame: the dtype of each column (its domain is the set of
    columns) and the rows in index order, each row mapping a column to
    its cell.  The order of the columns is not modelled. *)
Record DataFrame := {
  dtypes : gmap string dtype;
  rows : list (gmap string cell);
}.

(** [row[c]] in a frame with columns [dts]. *)
Definition row_get (dts : gmap string dtype) (r : gmap string cell) (c : string)
  : result cell :=
  match dts !! c with
  | Some _ => Ok (default NaN (r !! c))
  | None => Raise (KeyError c)
  end.

(** The key column of a row: [row['ids']]. *)
Definition ids_of (r : gmap string cell) : cell := default NaN (r !! "ids"%string).

(** [df[c]]: the cells of a column. *)
Definition column (c : string) (df : DataFrame) : result (list cell) :=
  match dtypes df !! c with
  | Some _ => Ok ((λ r, default NaN (r !! c)) <$> rows df)
  | None => Raise (KeyError c)
  end.

(** [df[c] = values]: the column is replaced in the frame itself. *)
Definition assign (c : string) (dt : dtype) (values : list cell) (df : DataFrame)
  : DataFrame :=
  {| dtypes := <[c := dt]> (dtypes df);
     rows := zip_with (λ r v, <[c := v]> r) (rows df) values |}.

(** [df[mask]]: the rows where the mask holds, in order. *)
Fixpoint boolean_index {A : Type} (mask : list bool) (xs : list A) : list A :=
  match mask, xs with
  | b :: mask', x :: xs' =>
      if b then x :: boolean_index mask' xs' else boolean_index mask' xs'
  | _, _ => []
  end.

Definition select_rows (mask : list bool) (df : DataFrame) : DataFrame :=
  {| dtypes := dtypes df; rows := boolean_index mask (rows df) |}.

(** ** Duplicate detection *)

Section Duplicated.
Context {K : Type} `{EqDecision K}.

(** [duplicated(keep='first')]: one pass over the keys with the keys
    seen so far; an entry is marked when its key has been seen. *)
Fixpoint duplicated_from (seen : list K) (keys : list K) : list bool :=
  match keys with
  | [] => []
  | k :: keys' => bool_decide (k ∈ seen) :: duplicated_from (k :: seen) keys'
  end.

Definition duplicated (keys : list K) : list bool := duplicated_from [] keys.

Context {R : Type} (key : R → K).

(** Lines 195-197 of [clean_data] on a sequence of records:
    [mask = duplicated(...)], [df[~mask]], [df[mask]]. *)
Definition partition (records : list R) : list R * list R :=
  let duplicate_mask := duplicated (key <$> records) in
  (boolean_index (negb <$> duplicate_mask) records,
   boolean_index duplicate_mask records).

(** The position [i] holds a key that occurs at an earlier position. *)
Definition seen_before (keys : list K) (i : nat) : bool :=
  match keys !! i with
  | Some k => bool_decide (k ∈ take i keys)
  | None => false
  end.

End Duplicated.


(** ** The statements of [clean_data] on a frame *)

Inductive errors_mode := ErrorsRaise | ErrorsCoerce.

Section Statements.
Context `{PyLib}.

(** [pd.to_datetime(column, dayfirst=..., errors=...)]: with
    [errors='coerce'] what does not parse becomes [NaT]; with
    [errors='raise'] it is an error. *)
Definition to_datetime (values : list cell) (dayfirst : bool) (errors : errors_mode)
  : result (list (option Timestamp)) :=
  let parsed := parse_datetime dayfirst values <$> values in
  match errors with
  | ErrorsCoerce => Ok parsed
  | ErrorsRaise =>
      if forallb (λ x, negb (notna x)
                       || bool_decide (is_Some (parse_datetime dayfirst values x)))
           values
      then Ok parsed else Raise ValueError
  end.

(** [s.zfill(n)] on digits. *)
Definition zfill (n : nat) (s : pystr) : pystr :=
  replicate (n - length s)%nat 48 ++ s.

(** [.dt.strftime('%Y-%m-%d')]; [NaT] gives the missing value. *)
Definition strftime (t : option Timestamp) : cell :=
  match t with
  | Some t =>
      CStr (zfill 4 (of_Z (year t)) ++ lit "-" ++ zfill 2 (of_Z (month t))
            ++ lit "-" ++ zfill 2 (of_Z (day t)))
  | None => NaN
  end.

(** [.str.upper().str.encode('ascii', errors='ignore').str.decode('ascii')]
    on one element: what is not text becomes missing. *)
Definition upper_ascii (x : cell) : cell :=
  match x with
  | CStr s => CStr (ascii_clean (str_upper s))
  | _ => NaN
  end.

(** [.str.encode('ascii', errors='ignore').str.decode('ascii')] *)
Definition ascii_only (x : cell) : cell :=
  match x with
  | CStr s => CStr (ascii_clean s)
  | _ => NaN
  end.

Fixpoint join (sep : pystr) (parts : list pystr) : pystr :=
  match parts with
  | [] => []
  | [p] => p
  | p :: ps => p ++ sep ++ join sep ps
  end.

(** [str(x)] *)
Definition py_str (x : cell) : pystr :=
  match x with
  | NaN => lit "nan"
  | CBool true => lit "True"
  | CBool false => lit "False"
  | CInt z => of_Z z
  | CFloat m e => float_repr m e
  | CInf false => lit "inf"
  | CInf true => lit "-inf"
  | CStr s => s
  | CList l => lit "[" ++ join (lit ", ") (str_repr <$> l) ++ lit "]"
  end.

(** [int(x)] *)
Definition py_int (x : cell) : result Z :=
  match x with
  | NaN => Raise ValueError
  | CBool b => Ok (if b then 1 else 0)%Z
  | CInt z => Ok z
  | CFloat m e =>
      Ok (if (0 <=? e)%Z then m * 2 ^ e else Z.quot m (2 ^ (- e)))%Z
  | CInf _ => Raise OverflowError
  | CStr s =>
      match int_of_text s with
      | Some z => Ok z
      | None => Raise ValueError
      end
  | CList _ => Raise TypeError
  end.

(** [df[c].str]: the accessor is refused on a column that is not of
    [object] dtype. *)
Definition str_column (c : string) (df : DataFrame) : result (list cell) :=
  match dtypes df !! c with
  | None => Raise (KeyError c)
  | Some DObject => column c df
  | Some _ => Raise AttributeError
  end.

(** Line 181:
    [df['dates'] = pd.to_datetime(df['dates'], dayfirst=True,
                                  errors='coerce').dt.strftime('%Y-%m-%d')] *)
Definition assign_dates (df : DataFrame) : W DataFrame :=
  dates ← quiet (column "dates" df);
  parsed ← quiet (to_datetime dates true ErrorsCoerce);
  mret (assign "dates" DObject (strftime <$> parsed) df).

(** Lines 182-184: [invalid_dates = df[df['dates'].isna()]] and the
    warning when it is not empty. *)
Definition warn_invalid_dates (df : DataFrame) : W unit :=
  dates ← quiet (column "dates" df);
  let invalid_dates := select_rows ((λ x, negb (notna x)) <$> dates) df in
  match rows invalid_dates with
  | [] => mret ()
  | _ =>
      bad_ids ← quiet (column "ids" invalid_dates);
      bad_dates ← quiet (column "dates" invalid_dates);
      warning (MsgInvalidDates (length (rows invalid_dates)) (zip bad_ids bad_dates))
  end.

(** Line 186 *)
Definition assign_names (df : DataFrame) : W DataFrame :=
  names ← quiet (str_column "names" df);
  mret (assign "names" DObject (upper_ascii <$> names) df).

(** Line 187: [df['genres'] = df['genres'].apply(self.parse_genres)] *)
Definition assign_genres (df : DataFrame) : W DataFrame :=
  genres ← quiet (column "genres" df);
  genres ← series_apply (λ x, l ← parse_genres x; mret (CList l)) genres;
  mret (assign "genres" DObject genres df).

(** Line 188 *)
Definition assign_feat_track_ids (df : DataFrame) : W DataFrame :=
  feat_track_ids ← quiet (column "feat_track_ids" df);
  feat_track_ids ← series_apply (λ x, l ← parse_track_ids x; mret (CList l))
                     feat_track_ids;
  mret (assign "feat_track_ids" DObject feat_track_ids df).

(** Lines 190-193 *)
Definition assign_playlists_found (df : DataFrame) : W DataFrame :=
  match dtypes df !! "playlists_found"%string with
  | None => quiet (Raise (KeyError "playlists_found"))
  | Some DObject =>
      playlists_found ← quiet (str_column "playlists_found" df);
      mret (assign "playlists_found" DObject (ascii_only <$> playlists_found) df)
  | Some _ =>
      playlists_found ← quiet (column "playlists_found" df);
      mret (assign "playlists_found" DObject
              ((λ x, CStr (py_str x)) <$> playlists_found) df)
  end.

(** Lines 181-195 in sequence, on one frame: the normalised frame and the
    duplicate mask. *)
Definition normalize (df : DataFrame) : W (DataFrame * list bool) :=
  df ← assign_dates df;
  warn_invalid_dates df;;
  df ← assign_names df;
  df ← assign_genres df;
  df ← assign_feat_track_ids df;
  df ← assign_playlists_found df;
  ids ← quiet (column "ids" df);
  mret (df, duplicated ids).

(** [df[c] = df[c].apply(lambda x: str(x))] *)
Definition stringify (c : string) (df : DataFrame) : W DataFrame :=
  values ← quiet (column c df);
  mret (assign c DObject ((λ x, CStr (py_str x)) <$> values) df).

End Statements.

(** ** The world of a run *)

(** What the CSV reader makes of the file at a path: nothing to parse
    (an empty file), a tokenising error, or a table; [utf8] tells whether
    the bytes decode as UTF-8 (if not, the table is the one read after
    replacing the undecodable bytes).  A header-only file is a table
    without rows. *)
Inductive source_file :=
| NoColumns
| Malformed
| Csv (utf8 : bool) (table : DataFrame).

Inductive json :=
| JNaN
| JInfinity (negative : bool)
| JBool (b : bool)
| JInt (z : Z)
| JFloat (m e : Z)
| JString (s : pystr)
| JArray (items : list json)
| JObject (members : list (string * json)).

Inductive artifact :=
| CsvArtifact (table : DataFrame)
| JsonArtifact (document : json).

(** The heap of DataFrame objects (a reference is an index), the log,
    the source files, the output directory, and the store: whether it
    can be reached, whether the cleaner holds a connection, and the two
    tables. *)
Record world := {
  heap : list DataFrame;
  logged : list log_entry;
  files : gmap pystr source_file;
  target : gmap pystr artifact;
  store_reachable : bool;
  connected : bool;
  data_table : list (gmap string cell);
  reject_table : list (gmap string cell);
}.

Definition set_heap (h : list DataFrame) (w : world) : world :=
  {| heap := h; logged := logged w; files := files w; target := target w;
     store_reachable := store_reachable w; connected := connected w;
     data_table := data_table w; reject_table := reject_table w |}.

Definition add_log (entries : list log_entry) (w : world) : world :=
  {| heap := heap w; logged := logged w ++ entries; files := files w;
     target := target w; store_reachable := store_reachable w;
     connected := connected w; data_table := data_table w;
     reject_table := reject_table w |}.

Definition set_target (t : gmap pystr artifact) (w : world) : world :=
  {| heap := heap w; logged := logged w; files := files w; target := t;
     store_reachable := store_reachable w; connected := connected w;
     data_table := data_table w; reject_table := reject_table w |}.

Definition set_connected (b : bool) (w : world) : world :=
  {| heap := heap w; logged := logged w; files := files w; target := target w;
     store_reachable := store_reachable w; connected := b;
     data_table := data_table w; reject_table := reject_table w |}.

Definition set_data_table (t : list (gmap string cell)) (w : world) : world :=
  {| heap := heap w; logged := logged w; files := files w; target := target w;
     store_reachable := store_reachable w; connected := connected w;
     data_table := t; reject_table := reject_table w |}.

Definition set_reject_table (t : list (gmap string cell)) (w : world) : world :=
  {| heap := heap w; logged := logged w; files := files w; target := target w;
     store_reachable := store_reachable w; connected := connected w;
     data_table := data_table w; reject_table := t |}.


(** ** Methods: exceptions and state *)

(** A method body: it runs in a world and returns or raises. *)
Definition M (A : Type) : Type := world → result A * world.

#[global] Instance M_ret : MRet M := λ A a w, (Ok a, w).
#[global] Instance M_bind : MBind M := λ A B f m w,
  match m w with
  | (Ok a, w') => f a w'
  | (Raise e, w') => (Raise e, w')
  end.

(** A logging computation run in the world. *)
Definition emit {A : Type} (p : W A) : M A :=
  λ w, (p.1, add_log p.2 w).

(** [logger.info(...)] *)
Definition info (msg : message) : M unit :=
  λ w, (Ok (), add_log [(INFO, msg)] w).

(** [try: body / except Exception as e: logger.error(...); raise] *)
Definition try_logged {A : Type} (where_ : string) (body : M A) : M A :=
  λ w, match body w with
       | (Raise e, w') => (Raise e, add_log [(ERROR, MsgFailed where_ e)] w')
       | (Ok a, w') => (Ok a, w')
       end.

(** [try: body / finally: cleanup] *)
Definition finally {A : Type} (body : M A) (cleanup : M unit) : M A :=
  λ w, match body w with
       | (r, w') =>
           match cleanup w' with
           | (Ok _, w'') => (r, w'')
           | (Raise e, w'') => (Raise e, w'')
           end
       end.

Definition empty_frame : DataFrame := {| dtypes := ∅; rows := [] |}.

(** The object behind a reference. *)
Definition frame_at (w : world) (df : nat) : DataFrame :=
  default empty_frame (heap w !! df).

Definition deref (df : nat) : M DataFrame := λ w, (Ok (frame_at w df), w).

(** A new object. *)
Definition alloc (frame : DataFrame) : M nat :=
  λ w, (Ok (length (heap w)), set_heap (heap w ++ [frame]) w).

(** [df.copy()] *)
Definition copy (df : nat) : M nat := frame ← deref df; alloc frame.

(** A statement that assigns a column of the object [df]: the object
    itself is updated, whoever holds the reference sees it. *)
Definition in_place (df : nat) (statement : DataFrame → W DataFrame) : M unit :=
  λ w, match statement (frame_at w df) with
       | (Ok frame, msgs) =>
           (Ok (), add_log msgs (set_heap (<[df := frame]> (heap w)) w))
       | (Raise e, msgs) => (Raise e, add_log msgs w)
       end.

(** [len(df)] *)
Definition len (df : nat) : M nat := frame ← deref df; mret (length (rows frame)).

(** ** The cleaner *)

Record DataCleaner := { test_datetime : pystr }.

(** The value a call evaluates to, as far as the caller of the driver
    can tell: [None], or the pair of counts of [get_table_counts]. *)
Inductive retval :=
| RetNone
| RetCounts (clean_count duplicate_count : nat).

Section Cleaner.
Context `{PyLib}.

(** [DataCleaner.clean_data]: every column assignment is made on the
    frame the caller passed; the two results are new objects. *)
Definition clean_data (df : nat) : M (nat * nat) :=
  try_logged "clean_data" (
    in_place df assign_dates;;
    frame ← deref df;
    emit (warn_invalid_dates frame);;
    in_place df assign_names;;
    in_place df assign_genres;;
    in_place df assign_feat_track_ids;;
    in_place df assign_playlists_found;;
    frame ← deref df;
    ids ← emit (quiet (column "ids" frame));
    let duplicate_mask := duplicated ids in
    clean_data ← alloc (select_rows (negb <$> duplicate_mask) frame);
    duplicate_data ← alloc (select_rows duplicate_mask frame);
    n ← len clean_data;
    info (MsgCleanRecords n);;
    n ← len duplicate_data;
    info (MsgDuplicateRecords n);;
    mret (clean_data, duplicate_data)).

End Cleaner.


(** ** Sink writers, loader and driver *)

Section Pipeline.
Context `{PyLib}.

(** The primary key of table [data] is the text of [ids]
    ([ids VARCHAR(255) PRIMARY KEY]): an insertion is accepted when no
    key is null and the keys of the table stay distinct.  Other causes
    of rejection by the store are not modelled. *)
Definition key_text (r : gmap string cell) : pystr := py_str (ids_of r).

Definition accepts (table new : list (gmap string cell)) : bool :=
  forallb (λ r, notna (ids_of r)) new
  && bool_decide (NoDup (key_text <$> (table ++ new))).

(** [df.to_sql('data', self.engine, if_exists='append', index=False)] *)
Definition to_sql_data (df : nat) : M unit :=
  λ w, if connected w then
         if accepts (data_table w) (rows (frame_at w df))
         then (Ok (), set_data_table (data_table w ++ rows (frame_at w df)) w)
         else (Raise IntegrityError, w)
       else (Raise OperationalError, w).

(** [df.to_sql('data_reject', self.engine, if_exists='append', index=False)] *)
Definition to_sql_reject (df : nat) : M unit :=
  λ w, if connected w
       then (Ok (), set_reject_table (reject_table w ++ rows (frame_at w df)) w)
       else (Raise OperationalError, w).

(** [DataCleaner.insert_to_database] *)
Definition insert_to_database (clean_data duplicate_data : nat) : M unit :=
  try_logged "insert_to_database" (
    clean_data_db ← copy clean_data;
    duplicate_data_db ← copy duplicate_data;
    in_place clean_data_db (stringify "genres");;
    in_place clean_data_db (stringify "feat_track_ids");;
    in_place duplicate_data_db (stringify "genres");;
    in_place duplicate_data_db (stringify "feat_track_ids");;
    to_sql_data clean_data_db;;
    n ← len clean_data_db;
    info (MsgInserted n "data");;
    to_sql_reject duplicate_data_db;;
    n ← len duplicate_data_db;
    info (MsgInserted n "data_reject")).

(** A value handed to [json.dump] as it is. *)
Definition json_of_cell (x : cell) : json :=
  match x with
  | NaN => JNaN
  | CBool b => JBool b
  | CInt z => JInt z
  | CFloat m e => JFloat m e
  | CInf negative => JInfinity negative
  | CStr s => JString s
  | CList l => JArray (JString <$> l)
  end.

(** [int(row[c]) if pd.notna(row[c]) else 0] *)
Definition int_or_zero (x : cell) : result Z :=
  if notna x then py_int x else Ok 0%Z.

(** The object appended to [json_data["data"]] for one row. *)
Definition json_record (dts : gmap string dtype) (row : gmap string cell)
  : result json :=
  dates ← row_get dts row "dates";
  ids ← row_get dts row "ids";
  names ← row_get dts row "names";
  monthly_listeners ← row_get dts row "monthly_listeners" ≫= int_or_zero;
  popularity ← row_get dts row "popularity" ≫= int_or_zero;
  followers ← row_get dts row "followers" ≫= int_or_zero;
  genres ← row_get dts row "genres";
  first_release ← row_get dts row "first_release";
  last_release ← row_get dts row "last_release";
  num_releases ← row_get dts row "num_releases" ≫= int_or_zero;
  num_tracks ← row_get dts row "num_tracks" ≫= int_or_zero;
  playlists_found ← row_get dts row "playlists_found";
  feat_track_ids ← row_get dts row "feat_track_ids";
  mret (JObject [
    ("dates", json_of_cell dates);
    ("ids", JString (py_str ids));
    ("names", JString (py_str names));
    ("monthly_listeners", JInt monthly_listeners);
    ("popularity", JInt popularity);
    ("followers", JInt followers);
    ("genres", json_of_cell genres);
    ("first_release", JString (py_str first_release));
    ("last_release", JString (py_str last_release));
    ("num_releases", JInt num_releases);
    ("num_tracks", JInt num_tracks);
    ("playlists_found", JString (py_str playlists_found));
    ("feat_track_ids", json_of_cell feat_track_ids)
  ]%string).

(** The [for _, row in clean_data.iterrows()] loop. *)
Fixpoint json_records (dts : gmap string dtype) (rws : list (gmap string cell))
  : result (list json) :=
  match rws with
  | [] => Ok []
  | row :: rest =>
      record ← json_record dts row;
      records ← json_records dts rest;
      mret (record :: records)
  end.

(** [os.path.join('/target', f"data_reject_{self.test_datetime}.csv")] *)
Definition duplicate_csv_path (self : DataCleaner) : pystr :=
  lit "/target/data_reject_" ++ test_datetime self ++ lit ".csv".

(** [os.path.join('/target', f"data_{self.test_datetime}.json")] *)
Definition clean_json_path (self : DataCleaner) : pystr :=
  lit "/target/data_" ++ test_datetime self ++ lit ".json".

Definition write_file (path : pystr) (a : artifact) : M unit :=
  λ w, (Ok (), set_target (<[path := a]> (target w)) w).

(** The document [json_data] for a clean frame. *)
Definition json_data (clean : DataFrame) : result json :=
  let row_count := length (rows clean) in
  data ← json_records (dtypes clean) (rows clean);
  mret (JObject [("row_count", JInt (Z.of_nat row_count));
                 ("data", JArray data)]%string).

(** [DataCleaner.create_backup_files] *)
Definition create_backup_files (self : DataCleaner) (clean_data duplicate_data : nat)
  : M unit :=
  try_logged "create_backup_files" (
    duplicate_data_csv ← copy duplicate_data;
    in_place duplicate_data_csv (stringify "genres");;
    in_place duplicate_data_csv (stringify "feat_track_ids");;
    table ← deref duplicate_data_csv;
    write_file (duplicate_csv_path self) (CsvArtifact table);;
    info (MsgCreatedFile (duplicate_csv_path self));;
    clean ← deref clean_data;
    document ← emit (quiet (json_data clean));
    write_file (clean_json_path self) (JsonArtifact document);;
    info (MsgCreatedFile (clean_json_path self))).

(** [DataCleaner.connect_db] *)
Definition connect_db : M unit :=
  try_logged "connect_db" (
    λ w, if store_reachable w
         then info (MsgText "Database connection established successfully")
                (set_connected true w)
         else (Raise OperationalError, w)).

(** [DataCleaner.create_tables]: [CREATE TABLE IF NOT EXISTS] leaves
    the rows of both tables as they are. *)
Definition create_tables : M unit :=
  try_logged "create_tables" (
    λ w, if connected w
         then info (MsgText "Tables created successfully") w
         else (Raise AttributeError, w)).

(** [DataCleaner.read_csv] *)
Definition read_csv (file_path : pystr) : M nat :=
  λ w, match files w !! file_path with
       | Some (Csv true table) =>
           (df ← alloc table;
            info (MsgReadCsv file_path);;
            info (MsgTotalRows (length (rows table)));;
            mret df) w
       | Some (Csv false table) =>
           (emit (warning MsgUtf8Failed);;
            df ← alloc table;
            info (MsgReadCsvFallback file_path);;
            info (MsgTotalRows (length (rows table)));;
            mret df) w
       | Some NoColumns => try_logged "read_csv" (emit (quiet (Raise EmptyDataError))) w
       | Some Malformed => try_logged "read_csv" (emit (quiet (Raise ParserError))) w
       | None => try_logged "read_csv" (emit (quiet (Raise FileNotFoundError))) w
       end.

(** [DataCleaner.get_table_counts] *)
Definition get_table_counts : M (nat * nat) :=
  try_logged "get_table_counts" (
    λ w, if connected w then
           let clean_count := length (data_table w) in
           let duplicate_count := length (reject_table w) in
           (info (MsgTableCount "data" clean_count);;
            info (MsgTableCount "data_reject" duplicate_count);;
            mret (clean_count, duplicate_count)) w
         else (Raise AttributeError, w)).

(** [DataCleaner.close_connections] *)
Definition close_connections : M unit :=
  λ w, info (MsgText "Database connections closed") (set_connected false w).

(** [DataCleaner.run_pipeline]: the body has no [return] statement. *)
Definition run_pipeline (self : DataCleaner) (csv_path : pystr) : M retval :=
  finally
    (try_logged "run_pipeline" (
       info (MsgText "Starting data cleansing pipeline...");;
       connect_db;;
       create_tables;;
       df ← read_csv csv_path;
       '(clean_data, duplicate_data) ← clean_data df;
       insert_to_database clean_data duplicate_data;;
       create_backup_files self clean_data duplicate_data;;
       get_table_counts;;
       info (MsgText "Data cleansing pipeline completed successfully!");;
       mret RetNone))
    close_connections.

End Pipeline.

(** ** Row-wise view of the normalisation *)

(** The cell of column [c] in a row. *)
Definition cell_of (c : string) (r : gmap string cell) : cell := default NaN (r !! c).

(** A column assigned row by row. *)
Definition map_rows (c : string) (g : gmap string cell → cell) (df : DataFrame)
  : DataFrame :=
  {| dtypes := <[c := DObject]> (dtypes df);
     rows := (λ r, <[c := g r]> r) <$> rows df |}.

(** The list a parser returned, when it returned. *)
Definition value_of (p : W (list pystr)) : list pystr :=
  match p.1 with
  | Ok l => l
  | Raise _ => []
  end.

Definition returns {A : Type} (p : W A) : bool :=
  match p.1 with
  | Ok _ => true
  | Raise _ => false
  end.

Definition has_column (c : string) (df : DataFrame) : bool :=
  bool_decide (is_Some (dtypes df !! c)).

(** The columns [clean_data] assigns. *)
Definition assigned_columns : list string :=
  ["dates"; "names"; "genres"; "feat_track_ids"; "playlists_found"]%string.

(** The fields [create_backup_files] passes through [int]. *)
Definition coerced_fields : list string :=
  ["monthly_listeners"; "popularity"; "followers"; "num_releases"; "num_tracks"]%string.

(** The fields [create_backup_files] passes through [str]. *)
Definition release_fields : list string := ["first_release"; "last_release"]%string.

(** The columns [clean_data] reads. *)
Definition required_columns : list string :=
  ["dates"; "ids"; "names"; "genres"; "feat_track_ids"; "playlists_found"]%string.

Section Rowwise.
Context `{PyLib}.

Definition playlists_found_value (dt : option dtype) (r : gmap string cell) : cell :=
  match dt with
  | Some DObject => ascii_only (cell_of "playlists_found" r)
  | _ => CStr (py_str (cell_of "playlists_found" r))
  end.

(** What lines 181-193 make of one row of the frame [df]. *)
Definition normalize_row (df : DataFrame) (r : gmap string cell) : gmap string cell :=
  <["playlists_found" :=
      playlists_found_value (dtypes df !! "playlists_found"%string) r]>
  (<["feat_track_ids" := CList (value_of (parse_track_ids (cell_of "feat_track_ids" r)))]>
  (<["genres" := CList (value_of (parse_genres (cell_of "genres" r)))]>
  (<["names" := upper_ascii (cell_of "names" r)]>
  (<["dates" := strftime (parse_datetime true (cell_of "dates" <$> rows df)
                            (cell_of "dates" r))]> r)))).

Definition normalized_dtypes (df : DataFrame) : gmap string dtype :=
  <["playlists_found" := DObject]>
  (<["feat_track_ids" := DObject]>
  (<["genres" := DObject]>
  (<["names" := DObject]>
  (<["dates" := DObject]> (dtypes df))))).

Definition normalized (df : DataFrame) : DataFrame :=
  {| dtypes := normalized_dtypes df; rows := normalize_row df <$> rows df |}.

(** The frames [clean_data] goes through without raising: the six
    columns it reads are there, [names] is of [object] dtype, and
    [ast.literal_eval] raises nothing but [SyntaxError] or [ValueError]
    on the genres. *)
Definition cleanable (df : DataFrame) : bool :=
  has_column "dates" df && has_column "ids" df
  && bool_decide (dtypes df !! "names"%string = Some DObject)
  && has_column "genres" df
  && forallb (λ r, returns (parse_genres (cell_of "genres" r))) (rows df)
  && has_column "feat_track_ids" df
  && has_column "playlists_found" df.

End Rowwise.

(** The world after statements on the object [df] have left it as
    [frame] and logged [msgs]. *)
Definition updated (w : world) (df : nat) (frame : DataFrame) (msgs : list log_entry)
  : world :=
  add_log msgs (set_heap (<[df := frame]> (heap w)) w).

Section Cleaned.
Context `{PyLib}.

(** The world [clean_data] leaves when it returns: the caller's object
    normalised, the two partitions appended as new objects. *)
Definition cleaned (df : nat) (w : world) (msgs : list log_entry) : world :=
  let frame := normalized (frame_at w df) in
  let mask := duplicated (ids_of <$> rows (frame_at w df)) in
  add_log msgs
    (set_heap (<[df := frame]> (heap w)
               ++ [select_rows (negb <$> mask) frame; select_rows mask frame]) w).

End Cleaned.

Fixpoint assoc (k : string) (members : list (string * json)) : option json :=
  match members with
  | [] => None
  | (k', v) :: rest => if decide (k' = k) then Some v else assoc k rest
  end.

(** The member [k] of a JSON object. *)
Definition json_member (k : string) (j : json) : option json :=
  match j with
  | JObject members => assoc k members
  | _ => None
  end.

Section Stringified.
Context `{PyLib}.

(** A frame whose [genres] and [feat_track_ids] have been turned to text,
    as both sinks do on their copies. *)
Definition stringified (df : DataFrame) : DataFrame :=
  map_rows "feat_track_ids" (λ r, CStr (py_str (cell_of "feat_track_ids" r)))
    (map_rows "genres" (λ r, CStr (py_str (cell_of "genres" r))) df).

(** Whether [insert_to_database] returns, and what it raises. *)
Definition insert_outcome (clean : DataFrame) (w : world) : result unit :=
  if connected w then
    if accepts (data_table w) (rows (stringified clean)) then Ok ()
    else Raise IntegrityError
  else Raise OperationalError.

End Stringified.

Section AfterLoad.
Context `{PyLib}.

(** The steps of [run_pipeline] that follow the loader. *)
Definition after_load (self : DataCleaner) (df : nat) : M retval :=
  '(clean_data, duplicate_data) ← clean_data df;
  insert_to_database clean_data duplicate_data;;
  create_backup_files self clean_data duplicate_data;;
  get_table_counts;;
  info (MsgText "Data cleansing pipeline completed successfully!");;
  mret RetNone.

End AfterLoad.

(** The candidates of [parse_track_ids]: the comma-separated pieces,
    trimmed. *)
Definition candidates (x : pystr) : list pystr := strip <$> split comma x.

(** The warning of [parse_track_ids] for a row's invalid candidates. *)
Definition invalid_track_ids_log (invalid : list pystr) : list log_entry :=
  match invalid with
  | [] => []
  | _ => [(WARNING, MsgInvalidTrackIds (take 5 invalid)
                      (bool_decide (5 < length invalid)%nat))]
  end.

(** ** An instance of the interface for running the model

    It is exact on the inputs of the examples below: ASCII text, flat
    lists of single-quoted words, ISO dates, decimal integers, integral
    floats.  The theorems hold for every instance. *)

Module Sample.

Definition upper_char (c : N) : N := if in_range 97 122 c then c - 32 else c.

Fixpoint digits (acc : Z) (s : pystr) : option Z :=
  match s with
  | [] => Some acc
  | c :: s' =>
      if in_range 48 57 c then digits (10 * acc + Z.of_N (c - 48))%Z s' else None
  end.

Definition number (s : pystr) : option Z :=
  match s with
  | [] => None
  | _ => digits 0%Z s
  end.

Definition decimal (s : pystr) : option Z :=
  match strip s with
  | 45 :: s' => Z.opp <$> number s'
  | s' => number s'
  end.

Definition quote : N := 39.

(** ['word'] *)
Definition quoted (s : pystr) : option pyobj :=
  match s with
  | c :: s' =>
      match reverse s' with
      | c' :: inner =>
          if (c =? quote) && (c' =? quote)
             && forallb (λ x, negb (x =? quote) && negb (x =? 92)) inner
          then Some (ObjStr (reverse inner)) else None
      | [] => None
      end
  | [] => None
  end.

Definition eval_flat_list (x : pystr) : eval_outcome :=
  match x with
  | c :: x' =>
      match reverse x' with
      | c' :: body =>
          if (c =? lbracket) && (c' =? rbracket) then
            if truthy (strip (reverse body)) then
              match mapM (λ item, quoted (strip item)) (split comma (reverse body)) with
              | Some items => EvalList items
              | None => EvalFail ValueError
              end
            else EvalList []
          else EvalFail SyntaxError
      | [] => EvalFail SyntaxError
      end
  | [] => EvalFail SyntaxError
  end.

(** [YYYY-MM-DD] *)
Definition iso_date (x : cell) : option Timestamp :=
  match x with
  | CStr s =>
      match split 45 s with
      | [y; m; d] =>
          if bool_decide (length y = 4 ∧ length m = 2 ∧ length d = 2)%nat then
            y ← number y; m ← number m; d ← number d;
            if bool_decide (1 ≤ m ≤ 12 ∧ 1 ≤ d ≤ 31)%Z
            then Some {| year := y; month := m; day := d |} else None
          else None
      | _ => None
      end
  | _ => None
  end.

Definition integral_repr (m e : Z) : pystr :=
  of_Z (if (0 <=? e)%Z then m * 2 ^ e else Z.quot m (2 ^ (- e)))%Z ++ lit ".0".

Definition quote_repr (s : pystr) : pystr := [quote] ++ s ++ [quote].

#[export] Instance lib : PyLib := {|
  str_upper := fmap upper_char;
  literal_eval := eval_flat_list;
  parse_datetime := λ _ _, iso_date;
  int_of_text := decimal;
  float_repr := integral_repr;
  str_repr := quote_repr;
|}.

End Sample.

(** ** Example data *)

Module Example.
Import Sample.

Definition schema : gmap string dtype :=
  list_to_map [
    ("dates", DObject); ("ids", DObject); ("names", DObject);
    ("monthly_listeners", DInt64); ("popularity", DFloat64); ("followers", DInt64);
    ("genres", DObject); ("first_release", DFloat64); ("last_release", DInt64);
    ("num_releases", DInt64); ("num_tracks", DInt64);
    ("playlists_found", DObject); ("feat_track_ids", DObject)]%string.

Definition artist (dates ids names genres feat_track_ids : string)
    (popularity first_release : cell) : gmap string cell :=
  list_to_map [
    ("dates", CStr (lit dates)); ("ids", CStr (lit ids)); ("names", CStr (lit names));
    ("monthly_listeners", CInt 1000000); ("popularity", popularity);
    ("followers", CInt 500000); ("genres", CStr (lit genres));
    ("first_release", first_release); ("last_release", CInt 2024);
    ("num_releases", CInt 5); ("num_tracks", CInt 50);
    ("playlists_found", CStr (lit "100")); ("feat_track_ids", CStr (lit feat_track_ids))
  ]%string.

(** Three rows, the third with the key of the first, a date that does not
    parse, no popularity and no first release. *)
Definition artist_one : gmap string cell :=
  artist "2024-01-01" "1" "artist one" "['pop']" "abcdefghijklmnopqrstuv,bad!!"
    (CFloat 80 0) (CFloat 2020 0).
Definition artist_two : gmap string cell :=
  artist "2024-01-02" "2" "artist two" "pop, rock" "" (CFloat 90 0) (CFloat 2019 0).
Definition artist_one_again : gmap string cell :=
  artist "no date" "1" "artist one" "[pop, rock" "" NaN NaN.

(** A row whose popularity is text that is no number. *)
Definition artist_three : gmap string cell :=
  artist "2024-01-03" "3" "artist three" "jazz" "" (CStr (lit "eighty")) (CFloat 2021 0).

Definition sample_df : DataFrame :=
  {| dtypes := schema; rows := [artist_one; artist_two; artist_one_again] |}.

(** The table of a file that holds the header row only. *)
Definition header_only : DataFrame :=
  {| dtypes := (λ _, DObject) <$> schema; rows := [] |}.

(** A table without the [genres] column. *)
Definition without_genres : DataFrame :=
  {| dtypes := delete "genres"%string schema;
     rows := delete "genres"%string <$> rows sample_df |}.

Definition csv_path : pystr := lit "/source/scrap.csv".

Definition world_of (fs : gmap pystr source_file) (reachable : bool)
    (table : list (gmap string cell)) : world :=
  {| heap := []; logged := []; files := fs; target := ∅;
     store_reachable := reachable; connected := false;
     data_table := table; reject_table := [] |}.

(** The source file is there and the store is empty. *)
Definition first_run : world := world_of {[ csv_path := Csv true sample_df ]} true [].

(** The store already holds the key [1]. *)
Definition second_run : world :=
  world_of {[ csv_path := Csv true sample_df ]} true [artist_one].

Definition store_down : world := world_of {[ csv_path := Csv true sample_df ]} false [].
Definition no_source : world := world_of ∅ true [].
Definition empty_source : world := world_of {[ csv_path := NoColumns ]} true [].
Definition header_only_source : world :=
  world_of {[ csv_path := Csv true header_only ]} true [].
Definition genres_missing : world :=
  world_of {[ csv_path := Csv true without_genres ]} true [].

(** The caller holds the loaded frame as object 0. *)
Definition loaded : world :=
  {| heap := [sample_df]; logged := []; files := ∅; target := ∅;
     store_reachable := true; connected := true;
     data_table := []; reject_table := [] |}.

Definition cleaner : DataCleaner := {| test_datetime := lit "20240101" |}.

(** The world after [clean_data] on the loaded frame: object 1 is the
    clean partition, object 2 the duplicates. *)
Definition partitioned : world := (clean_data 0 loaded).2.

(** The world after the artifacts have been written. *)
Definition exported : world := (create_backup_files cleaner 1 2 partitioned).2.

(** Records keyed [A, B, A, A, C], told apart by their popularity. *)
Definition keyed (k : string) (n : Z) : gmap string cell :=
  list_to_map [("ids", CStr (lit k)); ("popularity", CInt n)]%string.

End Example.

(** * Properties *)

Set Warnings "-clear-no-such-hyp".

Lemma lstrip_head s c t : lstrip s = c :: t → isspace c = false.
Proof.
  induction s as [|a s IH]; simpl; [done|].
  destruct (isspace a) eqn:E; [done|]. intros [= -> _]. done.
Qed.

Lemma strip_last s t c : strip s = t ++ [c] → isspace c = false.
Proof.
  unfold strip, rstrip. intros Hs.
  apply (f_equal reverse) in Hs. rewrite reverse_involutive, reverse_snoc in Hs.
  by apply lstrip_head in Hs.
Qed.

Lemma is_alnum_ascii c : is_alnum c = true → c < 128.
Proof.
  unfold is_alnum, in_range.
  rewrite !orb_true_iff, !andb_true_iff, !N.leb_le. lia.
Qed.

Lemma ascii_clean_alnum s : forallb is_alnum s = true → ascii_clean s = s.
Proof.
  unfold ascii_clean. induction s as [|c s IH]; [done|].
  cbn [forallb]. intros [Hc Hs]%andb_prop.
  rewrite filter_cons_True by by apply is_alnum_ascii.
  by rewrite IH.
Qed.

Lemma id_pattern_match_stripped item :
  (∀ t c, item = t ++ [c] → isspace c = false) →
  id_pattern_match item = is_track_id item.
Proof.
  intros Hlast. unfold id_pattern_match, is_track_id.
  pose proof (take_drop 22 item) as Hsplit.
  pose proof (length_drop item 22) as Hlen.
  destruct (drop 22 item) as [|c [|c' rest]] eqn:Hdrop; simpl in Hlen.
  - rewrite app_nil_r in Hsplit. rewrite Hsplit.
    rewrite andb_true_r. apply andb_comm.
  - assert (isspace c = false) as Hc by (apply (Hlast (take 22 item)); done).
    assert ((c =? newline) = false) as ->.
    { apply N.eqb_neq. intros ->. done. }
    rewrite andb_false_r. symmetry. apply andb_false_intro1.
    apply Nat.eqb_neq. lia.
  - rewrite andb_false_r. symmetry. apply andb_false_intro1.
    apply Nat.eqb_neq. lia.
Qed.

Lemma is_track_id_truthy s : is_track_id s = true → truthy s = true.
Proof. unfold is_track_id. destruct s; [done|done]. Qed.

Lemma classify_items_stripped items :
  Forall (λ item, ∀ t c, item = t ++ [c] → isspace c = false) items →
  classify_items items =
    (filter (λ c, is_track_id c = true) items,
     filter (λ c, is_track_id c = false) items).
Proof.
  induction 1 as [|item items Hitem _ IH]; [done|].
  cbn [classify_items]. rewrite IH, (id_pattern_match_stripped _ Hitem).
  destruct (is_track_id item) eqn:E.
  - rewrite (is_track_id_truthy _ E). simpl.
    rewrite filter_cons_True, filter_cons_False by (by rewrite ?E).
    rewrite ascii_clean_alnum; [done|].
    unfold is_track_id in E. by apply andb_prop in E as [_ ?].
  - rewrite andb_false_r.
    by rewrite filter_cons_False, filter_cons_True by (by rewrite ?E).
Qed.

Lemma split_without_separator sep s : contains sep s = false → split sep s = [s].
Proof.
  unfold contains. induction s as [|c s IH]; simpl; [done|].
  intros [Hc Hs]%orb_false_elim. rewrite N.eqb_sym, Hc, IH; done.
Qed.


Lemma items_are_candidates x :
  (if contains comma x then strip <$> split comma x else [strip x]) = candidates x.
Proof.
  unfold candidates. destruct (contains comma x) eqn:E; [done|].
  by rewrite (split_without_separator _ _ E).
Qed.

Lemma candidates_stripped x :
  Forall (λ item, ∀ t c, item = t ++ [c] → isspace c = false) (candidates x).
Proof.
  unfold candidates. apply Forall_fmap, Forall_true. intros s t c. apply strip_last.
Qed.


(** C5. [parse_track_ids] keeps, in their order, exactly the
    comma-separated candidates that, once trimmed, are 22 characters long
    and made of ASCII letters and digits; the others are dropped and
    logged in one warning that shows at most the first five of them and
    says whether there are more; a blank text gives nothing and logs
    nothing.  ["abcdefghijklmnopqrstuv,bad!!"] gives
    [["abcdefghijklmnopqrstuv"]]. *)
Theorem parse_track_ids_keeps_valid_candidates :
  (∀ x : pystr,
     parse_track_ids (CStr x) =
       if truthy (strip x) then
         (Ok (filter (λ c, is_track_id c = true) (candidates x)),
          invalid_track_ids_log (filter (λ c, is_track_id c = false) (candidates x)))
       else (Ok [], []))
  ∧ parse_track_ids (CStr (lit "abcdefghijklmnopqrstuv,bad!!")) =
      (Ok [lit "abcdefghijklmnopqrstuv"],
       [(WARNING, MsgInvalidTrackIds [lit "bad!!"] false)]).
Proof.
  split; [|reflexivity].
  intros x. unfold parse_track_ids.
  destruct (truthy (strip x)); [|done].
  rewrite items_are_candidates, (classify_items_stripped _ (candidates_stripped x)).
  destruct (filter (λ c, is_track_id c = false) (candidates x)); reflexivity.
Qed.

Lemma split_genres_in_words x :
  split_genres x = ascii_clean <$> filter (λ token, token ≠ []) (strip <$> split comma x).
Proof.
  unfold split_genres. induction (split comma x) as [|item items IH]; [done|].
  rewrite fmap_cons. destruct (strip item) eqn:E.
  - rewrite !filter_cons_False; [done|naive_solver|by rewrite E].
  - rewrite !filter_cons_True, fmap_cons, IH, E; [done|done|by rewrite E].
Qed.

(** C4, as the code has it. On a text in brackets that
    [ast.literal_eval] rejects, [parse_genres] logs a warning and falls
    back to splitting on commas, trimming, dropping the empty tokens and
    ASCII-cleaning each; a text that is not in brackets on both sides
    takes the same comma-split path without any warning, and so does
    ["[pop, rock"], which gives [["[pop"; "rock"]]. *)
Theorem parse_genres_fallback `{PyLib} :
  (∀ x e,
     truthy (strip x) = true →
     startswith lbracket x && endswith rbracket x = true →
     literal_eval x = EvalFail e →
     parse_genres (CStr x) =
       (Ok (ascii_clean <$> filter (λ token, token ≠ []) (strip <$> split comma x)),
        [(WARNING, MsgGenresEvalFailed x e)]))
  ∧ (∀ x,
       truthy (strip x) = true →
       startswith lbracket x && endswith rbracket x = false →
       parse_genres (CStr x) =
         (Ok (ascii_clean <$> filter (λ token, token ≠ []) (strip <$> split comma x)),
          []))
  ∧ parse_genres (CStr (lit "[pop, rock")) = (Ok [lit "[pop"; lit "rock"], []).
Proof.
  split; [|split].
  - intros x e Hx Hb He. unfold parse_genres. rewrite Hx, Hb, He.
    by rewrite <- split_genres_in_words.
  - intros x Hx Hb. unfold parse_genres. rewrite Hx, Hb.
    by rewrite <- split_genres_in_words.
  - reflexivity.
Qed.

Lemma parse_genres_fallback_witness :
  @parse_genres Sample.lib (CStr (lit "[pop, rock]")) =
    (Ok [lit "[pop"; lit "rock]"], [(WARNING, MsgGenresEvalFailed (lit "[pop, rock]") ValueError)])
  ∧ @parse_genres Sample.lib (CStr (lit "pop, rock")) = (Ok [lit "pop"; lit "rock"], []).
Proof.
  split.
  - apply (proj1 (@parse_genres_fallback Sample.lib) (lit "[pop, rock]") ValueError);
      reflexivity.
  - apply (proj1 (proj2 (@parse_genres_fallback Sample.lib)) (lit "pop, rock"));
      reflexivity.
Defined.

(** C4, as stated, fails: whatever the evaluator does, nothing is
    logged for ["[pop, rock"]. *)
Lemma parse_genres_unclosed_bracket_logs_nothing :
  ¬ (∃ L : PyLib, (@parse_genres L (CStr (lit "[pop, rock"))).2 ≠ []).
Proof. intros [L HL]. apply HL. reflexivity. Qed.

Section DuplicatedFacts.
Context {K : Type} `{EqDecision K}.

Lemma length_duplicated_from (seen keys : list K) :
  length (duplicated_from seen keys) = length keys.
Proof. revert seen. induction keys; intros; simpl; [done|]. by rewrite IHkeys. Qed.

Lemma duplicated_from_snoc (seen keys : list K) (k : K) :
  duplicated_from seen (keys ++ [k])
  = duplicated_from seen keys ++ [bool_decide (k ∈ seen ∨ k ∈ keys)].
Proof.
  revert seen. induction keys as [|k0 keys IH]; intros seen; simpl.
  - do 2 f_equal. apply bool_decide_ext. set_solver.
  - rewrite IH. do 3 f_equal. apply bool_decide_ext. set_solver.
Qed.

Lemma duplicated_snoc (keys : list K) (k : K) :
  duplicated (keys ++ [k]) = duplicated keys ++ [bool_decide (k ∈ keys)].
Proof.
  unfold duplicated. rewrite duplicated_from_snoc. do 2 f_equal.
  apply bool_decide_ext. set_solver.
Qed.

Lemma boolean_index_snoc {A : Type} (mask : list bool) (xs : list A) b x :
  length mask = length xs →
  boolean_index (mask ++ [b]) (xs ++ [x])
  = boolean_index mask xs ++ (if b then [x] else []).
Proof.
  revert xs. induction mask as [|b0 mask IH]; intros [|x0 xs] Hlen;
    simplify_eq/=; [by destruct b|].
  rewrite IH by done. by destruct b0.
Qed.

Lemma length_boolean_index {A : Type} (mask : list bool) (xs : list A) :
  length mask = length xs →
  (length (boolean_index (negb <$> mask) xs) + length (boolean_index mask xs)
   = length xs)%nat.
Proof.
  revert xs. induction mask as [|b mask IH]; intros [|x xs] Hlen;
    simplify_eq/=; [done|].
  specialize (IH xs Hlen). destruct b; simpl; lia.
Qed.

Context {R : Type} (key : R → K).

Lemma partition_nil : partition key [] = ([], []).
Proof. reflexivity. Qed.

(** One more record at the end goes to the clean part when its key is
    new, to the rejected part when it has been seen. *)
Lemma partition_snoc (records : list R) (r : R) :
  partition key (records ++ [r]) =
    if bool_decide (key r ∈ key <$> records)
    then ((partition key records).1, (partition key records).2 ++ [r])
    else ((partition key records).1 ++ [r], (partition key records).2).
Proof.
  unfold partition. rewrite fmap_app. cbn [fmap list_fmap].
  rewrite duplicated_snoc, fmap_app. cbn [fmap list_fmap].
  assert (length (duplicated (key <$> records)) = length records) as Hlen.
  { unfold duplicated. by rewrite length_duplicated_from, length_fmap. }
  rewrite !boolean_index_snoc by (by rewrite ?length_fmap).
  destruct (bool_decide _); simpl; by rewrite !app_nil_r.
Qed.

Lemma seen_before_snoc (keys : list K) (k : K) (i : nat) :
  (i < length keys)%nat → seen_before (keys ++ [k]) i = seen_before keys i.
Proof.
  intros Hi. unfold seen_before.
  rewrite lookup_app_l by done. rewrite take_app_le by lia. done.
Qed.

Lemma seen_before_last (keys : list K) (k : K) :
  seen_before (keys ++ [k]) (length keys) = bool_decide (k ∈ keys).
Proof.
  unfold seen_before. rewrite list_lookup_middle by done.
  by rewrite take_app_length.
Qed.

Lemma filter_ext_in {A : Type} (P Q : A → Prop) `{∀ x, Decision (P x)}
    `{∀ x, Decision (Q x)} (l : list A) :
  (∀ x, x ∈ l → P x ↔ Q x) → filter P l = filter Q l.
Proof.
  induction l as [|x l IH]; intros HPQ; [done|].
  rewrite !filter_cons, IH by (intros; apply HPQ; set_solver).
  destruct (decide (P x)) as [HP|HP], (decide (Q x)) as [HQ|HQ]; try done;
    exfalso; apply (HPQ x) in HP || apply (HPQ x) in HQ; set_solver.
Qed.

Lemma omap_ext_in {A B : Type} (f g : A → option B) (l : list A) :
  (∀ x, x ∈ l → f x = g x) → omap f l = omap g l.
Proof.
  induction l as [|x l IH]; intros Hfg; [done|].
  cbn [omap list_omap]. rewrite (Hfg x), IH by set_solver. done.
Qed.

(** The records at the positions, in increasing order, whose
    [seen_before] flag is [b]. *)
Lemma positions_snoc (records : list R) (r : R) (b : bool) :
  omap (λ i, (records ++ [r]) !! i)
    (filter (λ i, seen_before (key <$> records ++ [r]) i = b)
       (seq 0 (length (records ++ [r]))))
  = omap (λ i, records !! i)
      (filter (λ i, seen_before (key <$> records) i = b) (seq 0 (length records)))
    ++ (if decide (bool_decide (key r ∈ key <$> records) = b) then [r] else []).
Proof.
  rewrite length_app, Nat.add_1_r, seq_S, filter_app, omap_app, fmap_app.
  cbn [fmap list_fmap]. f_equal.
  - rewrite (filter_ext_in _ (λ i, seen_before (key <$> records) i = b)).
    + apply omap_ext_in. intros i [_ Hi]%list_elem_of_filter.
      apply elem_of_seq in Hi. apply lookup_app_l. lia.
    + intros i Hi%elem_of_seq.
      rewrite seen_before_snoc by (rewrite length_fmap; lia). done.
  - rewrite filter_cons, filter_nil. cbn [plus].
    pose proof (seen_before_last (key <$> records) (key r)) as Hlast.
    rewrite length_fmap in Hlast. rewrite Hlast.
    destruct (decide _); [|done].
    cbn [omap list_omap]. by rewrite list_lookup_middle.
Qed.

Lemma partition_by_position (records : list R) :
  partition key records =
    (omap (λ i, records !! i)
       (filter (λ i, seen_before (key <$> records) i = false)
          (seq 0 (length records))),
     omap (λ i, records !! i)
       (filter (λ i, seen_before (key <$> records) i = true)
          (seq 0 (length records)))).
Proof.
  induction records as [|r records IH] using rev_ind; [done|].
  rewrite partition_snoc, !positions_snoc, IH. cbn [fst snd].
  destruct (bool_decide (key r ∈ key <$> records)); simpl;
    by rewrite ?app_nil_r.
Qed.

Lemma partition_invariant (records : list R) :
  (length (partition key records).1 + length (partition key records).2
   = length records)%nat
  ∧ NoDup (key <$> (partition key records).1)
  ∧ (∀ k, k ∈ key <$> records ↔ k ∈ key <$> (partition key records).1)
  ∧ (∀ r, r ∈ (partition key records).2 → key r ∈ key <$> (partition key records).1).
Proof.
  induction records as [|r records (Hlen & Hnodup & Hkeys & Hrej)] using rev_ind.
  { split_and!; [done|constructor|done|by intros ? ?%elem_of_nil]. }
  rewrite partition_snoc. case_bool_decide as Hseen; cbn [fst snd].
  - split_and!.
    + rewrite !length_app. cbn [length]. lia.
    + done.
    + intros k. rewrite fmap_app, elem_of_app, <- Hkeys. set_solver.
    + intros r' [?|Hr']%elem_of_app; [by apply Hrej|].
      apply Hkeys. set_solver.
  - split_and!.
    + rewrite !length_app. cbn [length]. lia.
    + rewrite fmap_app. apply NoDup_app. split_and!; [done| |apply NoDup_singleton].
      intros k Hk%Hkeys. set_solver.
    + intros k. rewrite !fmap_app, !elem_of_app, Hkeys. done.
    + intros r' Hr'%Hrej. rewrite fmap_app, elem_of_app. auto.
Qed.

Lemma partition_position (records : list R) (i : nat) (r : R) :
  records !! i = Some r →
  if seen_before (key <$> records) i
  then r ∈ (partition key records).2
  else r ∈ (partition key records).1.
Proof.
  intros Hr. rewrite partition_by_position. cbn [fst snd].
  assert (i ∈ seq 0 (length records)) as Hi.
  { apply elem_of_seq. apply lookup_lt_Some in Hr. lia. }
  destruct (seen_before (key <$> records) i) eqn:Hseen;
    apply list_elem_of_omap; exists i; (split; [|done]);
    by apply list_elem_of_filter.
Qed.

End DuplicatedFacts.


Lemma updated_init w df :
  (df < length (heap w))%nat → updated w df (frame_at w df) [] = w.
Proof.
  intros Hdf. destruct (lookup_lt_is_Some_2 _ _ Hdf) as [frame Hframe].
  unfold updated, frame_at, add_log, set_heap. rewrite Hframe. simpl.
  rewrite list_insert_id, app_nil_r by done. by destruct w.
Qed.

Lemma frame_at_updated w df frame msgs :
  (df < length (heap w))%nat → frame_at (updated w df frame msgs) df = frame.
Proof. intros Hdf. unfold frame_at, updated. simpl. by rewrite list_lookup_insert_eq. Qed.

Lemma in_place_updated w df frame msgs statement :
  (df < length (heap w))%nat →
  in_place df statement (updated w df frame msgs) =
    match statement frame with
    | (Ok frame', msgs') => (Ok (), updated w df frame' (msgs ++ msgs'))
    | (Raise e, msgs') => (Raise e, updated w df frame (msgs ++ msgs'))
    end.
Proof.
  intros Hdf. unfold in_place. rewrite frame_at_updated by done.
  destruct (statement frame) as [[frame'|e] msgs']; unfold updated, add_log, set_heap;
    simpl; rewrite ?list_insert_insert_eq, ?app_assoc; done.
Qed.

Lemma bind_run {A B : Type} (m : M A) (f : A → M B) (w : world) :
  (m ≫= f) w =
    match m w with
    | (Ok a, w') => f a w'
    | (Raise e, w') => (Raise e, w')
    end.
Proof. reflexivity. Qed.

Lemma W_bind_run {A B : Type} (m : W A) (f : A → W B) :
  (m ≫= f) =
    match m with
    | (Ok a, l) => let '(r, l') := f a in (r, l ++ l')
    | (Raise e, l) => (Raise e, l)
    end.
Proof. reflexivity. Qed.

Lemma in_place_bind {B : Type} w df frame msgs statement (k : unit → M B) :
  (df < length (heap w))%nat →
  (in_place df statement ≫= k) (updated w df frame msgs) =
    match statement frame with
    | (Ok frame', msgs') => k () (updated w df frame' (msgs ++ msgs'))
    | (Raise e, msgs') => (Raise e, updated w df frame (msgs ++ msgs'))
    end.
Proof.
  intros Hdf. rewrite bind_run, in_place_updated by done.
  by destruct (statement frame) as [[frame'|e] msgs'].
Qed.

Lemma deref_bind {B : Type} w df frame msgs (k : DataFrame → M B) :
  (df < length (heap w))%nat →
  (deref df ≫= k) (updated w df frame msgs) = k frame (updated w df frame msgs).
Proof. intros Hdf. rewrite bind_run. unfold deref. by rewrite frame_at_updated. Qed.

Lemma emit_bind {A B : Type} w df frame msgs (p : W A) (k : A → M B) :
  (emit p ≫= k) (updated w df frame msgs) =
    match p with
    | (Ok a, msgs') => k a (updated w df frame (msgs ++ msgs'))
    | (Raise e, msgs') => (Raise e, updated w df frame (msgs ++ msgs'))
    end.
Proof.
  rewrite bind_run. unfold emit.
  destruct p as [[a|e] msgs']; unfold updated, add_log, set_heap; simpl;
    by rewrite app_assoc.
Qed.

Section CleanData.
Context `{PyLib}.

Lemma clean_data_updated (df : nat) (w : world) frame0 msgs0 :
  (df < length (heap w))%nat →
  match normalize frame0 with
  | (Ok (frame, mask), msgs) =>
      clean_data df (updated w df frame0 msgs0) =
        (Ok (length (heap w), S (length (heap w))),
         add_log (msgs0 ++ msgs
                  ++ [(INFO, MsgCleanRecords (length (boolean_index (negb <$> mask) (rows frame))));
                      (INFO, MsgDuplicateRecords (length (boolean_index mask (rows frame))))])
           (set_heap (<[df := frame]> (heap w)
                      ++ [select_rows (negb <$> mask) frame; select_rows mask frame]) w))
  | (Raise e, msgs) => ∃ w', clean_data df (updated w df frame0 msgs0) = (Raise e, w')
  end.
Proof.
  intros Hdf. unfold clean_data, try_logged, normalize.
  rewrite in_place_bind, W_bind_run by done.
  destruct (assign_dates frame0) as [[frame1|e] m1]; [|eauto].
  rewrite deref_bind, emit_bind, W_bind_run by done.
  destruct (warn_invalid_dates frame1) as [[[]|e] m2]; [|eauto].
  rewrite in_place_bind, W_bind_run by done.
  destruct (assign_names frame1) as [[frame2|e] m3]; [|eauto].
  rewrite in_place_bind, W_bind_run by done.
  destruct (assign_genres frame2) as [[frame3|e] m4]; [|eauto].
  rewrite in_place_bind, W_bind_run by done.
  destruct (assign_feat_track_ids frame3) as [[frame4|e] m5]; [|eauto].
  rewrite in_place_bind, W_bind_run by done.
  destruct (assign_playlists_found frame4) as [[frame5|e] m6]; [|eauto].
  rewrite deref_bind, emit_bind, W_bind_run by done.
  destruct (quiet (column "ids" frame5)) as [[ids|e] m7] eqn:Hids; [|eauto].
  injection Hids as _ <-.
  unfold updated, len, alloc, info, deref, frame_at.
  unfold mbind, M_bind, mret, M_ret, add_log, set_heap. cbn.
  set (h := <[df:=frame5]> (heap w)).
  assert (length h = length (heap w)) as Hh by apply length_insert.
  rewrite (list_lookup_middle (h ++ [_]) [] _ (length (h ++ [_]))) by done.
  rewrite <- Hh, lookup_app_l by (rewrite length_app; simpl; lia).
  rewrite (list_lookup_middle h [] _ (length h)) by done.
  rewrite length_app, Nat.add_1_r. cbn.
  by rewrite !app_nil_r, <- !app_assoc.
Qed.

Lemma clean_data_run (df : nat) (w : world) :
  (df < length (heap w))%nat →
  match normalize (frame_at w df) with
  | (Ok (frame, mask), msgs) =>
      clean_data df w =
        (Ok (length (heap w), S (length (heap w))),
         add_log (msgs
                  ++ [(INFO, MsgCleanRecords (length (boolean_index (negb <$> mask) (rows frame))));
                      (INFO, MsgDuplicateRecords (length (boolean_index mask (rows frame))))])
           (set_heap (<[df := frame]> (heap w)
                      ++ [select_rows (negb <$> mask) frame; select_rows mask frame]) w))
  | (Raise e, msgs) => ∃ w', clean_data df w = (Raise e, w')
  end.
Proof.
  intros Hdf.
  pose proof (clean_data_updated df w (frame_at w df) [] Hdf) as Hrun.
  by rewrite updated_init in Hrun.
Qed.

End CleanData.



Lemma column_present c dt (df : DataFrame) :
  dtypes df !! c = Some dt → column c df = Ok (cell_of c <$> rows df).
Proof. intros Hc. unfold column. by rewrite Hc. Qed.

Lemma column_absent c (df : DataFrame) :
  dtypes df !! c = None → column c df = Raise (KeyError c).
Proof. intros Hc. unfold column. by rewrite Hc. Qed.

Lemma rows_assign_fmap c dt (g : cell → cell) (f : gmap string cell → cell) (df : DataFrame) :
  rows (assign c dt (g <$> (f <$> rows df)) df)
  = (λ r, <[c := g (f r)]> r) <$> rows df.
Proof.
  unfold assign. cbn [rows]. induction (rows df) as [|r rs IH]; [done|].
  cbn. by rewrite IH.
Qed.

Lemma forallb_fmap {A B : Type} (p : B → bool) (g : A → B) (l : list A) :
  forallb p (g <$> l) = forallb (λ x, p (g x)) l.
Proof. induction l as [|x l IH]; [done|]. cbn. by rewrite IH. Qed.

Lemma forallb_ext_eq {A : Type} (p q : A → bool) (l : list A) :
  (∀ x, p x = q x) → forallb p l = forallb q l.
Proof. intros Hpq. induction l as [|x l IH]; [done|]. cbn. by rewrite Hpq, IH. Qed.

Section StatementFacts.
Context `{PyLib}.

Lemma series_apply_returns (f : cell → W (list pystr)) (xs : list cell) :
  forallb (λ x, returns (f x)) xs = true →
  ∃ msgs, series_apply (λ x, l ← f x; mret (CList l)) xs
          = (Ok ((λ x, CList (value_of (f x))) <$> xs), msgs).
Proof.
  induction xs as [|x xs IH]; [by eexists|].
  cbn [forallb]. intros [Hx Hxs]%andb_prop. destruct (IH Hxs) as [msgs Hmsgs].
  cbn [series_apply]. rewrite Hmsgs. rewrite fmap_cons.
  unfold returns in Hx. unfold value_of at 1.
  destruct (f x) as [[l|e] m]; [|done]. by eexists.
Qed.

Lemma series_apply_raises (f : cell → W (list pystr)) (xs : list cell) :
  forallb (λ x, returns (f x)) xs = false →
  ∃ e msgs, series_apply (λ x, l ← f x; mret (CList l)) xs = (Raise e, msgs).
Proof.
  induction xs as [|x xs IH]; [done|].
  cbn [forallb series_apply]. unfold returns at 1.
  destruct (f x) as [[l|e] m] eqn:Hx; [|by do 2 eexists].
  cbn. intros Hxs. destruct (IH Hxs) as (e & msgs & ->). by do 2 eexists.
Qed.

Lemma assign_fmap c (g : cell → cell) (f : gmap string cell → cell) (df : DataFrame) :
  assign c DObject (g <$> (f <$> rows df)) df = map_rows c (λ r, g (f r)) df.
Proof. unfold map_rows. by rewrite <- (rows_assign_fmap c DObject g f). Qed.

Lemma has_column_true c (df : DataFrame) :
  has_column c df = true → ∃ dt, dtypes df !! c = Some dt.
Proof. unfold has_column. by intros [dt ?]%bool_decide_eq_true_1; exists dt. Qed.

Lemma has_column_false c (df : DataFrame) :
  has_column c df = false → dtypes df !! c = None.
Proof.
  unfold has_column. intros Hc%bool_decide_eq_false_1.
  by apply eq_None_not_Some.
Qed.

Lemma has_column_map_rows c c' g (df : DataFrame) :
  c ≠ c' → has_column c' (map_rows c g df) = has_column c' df.
Proof. intros Hc. unfold has_column, map_rows. cbn. by rewrite lookup_insert_ne. Qed.

Lemma assign_dates_present (df : DataFrame) :
  has_column "dates" df = true →
  assign_dates df =
    (Ok (map_rows "dates"
           (λ r, strftime (parse_datetime true (cell_of "dates" <$> rows df)
                             (cell_of "dates" r))) df), []).
Proof.
  intros [dt Hdt]%has_column_true. unfold assign_dates.
  rewrite (column_present _ _ _ Hdt). cbn.
  rewrite <- list_fmap_compose.
  by rewrite (assign_fmap "dates" (strftime ∘ _) (cell_of "dates")).
Qed.

Lemma assign_dates_absent (df : DataFrame) :
  has_column "dates" df = false → assign_dates df = (Raise (KeyError "dates"), []).
Proof.
  intros Hdt%has_column_false. unfold assign_dates. by rewrite (column_absent _ _ Hdt).
Qed.

Lemma warn_invalid_dates_returns (df : DataFrame) :
  has_column "dates" df = true → has_column "ids" df = true →
  ∃ msgs, warn_invalid_dates df = (Ok (), msgs).
Proof.
  intros [dt Hdt]%has_column_true [dt' Hids]%has_column_true.
  unfold warn_invalid_dates. rewrite (column_present _ _ _ Hdt). cbn.
  destruct (boolean_index _ _) eqn:Hinvalid; [by eexists|].
  unfold column, select_rows. cbn. rewrite Hids, Hdt. by eexists.
Qed.

Lemma assign_names_object (df : DataFrame) :
  dtypes df !! "names"%string = Some DObject →
  assign_names df = (Ok (map_rows "names" (λ r, upper_ascii (cell_of "names" r)) df), []).
Proof.
  intros Hdt. unfold assign_names, str_column. rewrite Hdt.
  rewrite (column_present _ _ _ Hdt). cbn.
  by rewrite (assign_fmap "names" upper_ascii (cell_of "names")).
Qed.

Lemma assign_names_refused (df : DataFrame) :
  dtypes df !! "names"%string ≠ Some DObject →
  ∃ e, assign_names df = (Raise e, []).
Proof.
  intros Hdt. unfold assign_names, str_column.
  destruct (dtypes df !! "names"%string) as [[]|]; try done; by eexists.
Qed.

Lemma assign_genres_returns (df : DataFrame) :
  has_column "genres" df = true →
  forallb (λ r, returns (parse_genres (cell_of "genres" r))) (rows df) = true →
  ∃ msgs, assign_genres df =
    (Ok (map_rows "genres" (λ r, CList (value_of (parse_genres (cell_of "genres" r)))) df),
     msgs).
Proof.
  intros [dt Hdt]%has_column_true Hrows. unfold assign_genres.
  rewrite (column_present _ _ _ Hdt). cbn.
  destruct (series_apply_returns parse_genres (cell_of "genres" <$> rows df)) as [msgs ->].
  { by rewrite forallb_fmap. }
  cbn. eexists.
  by rewrite (assign_fmap "genres" (λ x, CList (value_of (parse_genres x)))
                (cell_of "genres")).
Qed.

Lemma assign_genres_raises (df : DataFrame) :
  has_column "genres" df = false
  ∨ forallb (λ r, returns (parse_genres (cell_of "genres" r))) (rows df) = false →
  ∃ e msgs, assign_genres df = (Raise e, msgs).
Proof.
  unfold assign_genres. destruct (dtypes df !! "genres"%string) as [dt|] eqn:Hdt.
  - intros [Hc|Hrows].
    { apply has_column_false in Hc. congruence. }
    rewrite (column_present _ _ _ Hdt). cbn.
    destruct (series_apply_raises parse_genres (cell_of "genres" <$> rows df))
      as (e & msgs & ->); [by rewrite forallb_fmap|].
    by do 2 eexists.
  - intros _. rewrite (column_absent _ _ Hdt). by do 2 eexists.
Qed.

Lemma parse_track_ids_returns (x : cell) : returns (parse_track_ids x) = true.
Proof.
  unfold returns, parse_track_ids. destruct x as [| | | | |s|]; try done.
  destruct (truthy (strip s)); [|done].
  destruct (classify_items _) as [valid [|]]; done.
Qed.

Lemma assign_feat_track_ids_present (df : DataFrame) :
  has_column "feat_track_ids" df = true →
  ∃ msgs, assign_feat_track_ids df =
    (Ok (map_rows "feat_track_ids"
           (λ r, CList (value_of (parse_track_ids (cell_of "feat_track_ids" r)))) df),
     msgs).
Proof.
  intros [dt Hdt]%has_column_true. unfold assign_feat_track_ids.
  rewrite (column_present _ _ _ Hdt). cbn.
  destruct (series_apply_returns parse_track_ids (cell_of "feat_track_ids" <$> rows df))
    as [msgs ->].
  { apply forallb_forall. intros x _. apply parse_track_ids_returns. }
  cbn. eexists.
  by rewrite (assign_fmap "feat_track_ids" (λ x, CList (value_of (parse_track_ids x)))
                (cell_of "feat_track_ids")).
Qed.

Lemma assign_feat_track_ids_absent (df : DataFrame) :
  has_column "feat_track_ids" df = false →
  assign_feat_track_ids df = (Raise (KeyError "feat_track_ids"), []).
Proof.
  intros Hdt%has_column_false. unfold assign_feat_track_ids.
  by rewrite (column_absent _ _ Hdt).
Qed.


Lemma assign_playlists_found_present (df : DataFrame) :
  has_column "playlists_found" df = true →
  assign_playlists_found df =
    (Ok (map_rows "playlists_found"
           (playlists_found_value (dtypes df !! "playlists_found"%string)) df), []).
Proof.
  intros [dt Hdt]%has_column_true. unfold assign_playlists_found, str_column.
  rewrite Hdt, (column_present _ _ _ Hdt).
  destruct dt; cbn;
    [by rewrite (assign_fmap "playlists_found" ascii_only (cell_of "playlists_found"))
    |by rewrite (assign_fmap "playlists_found" (λ x, CStr (py_str x))
                   (cell_of "playlists_found"))..].
Qed.

Lemma assign_playlists_found_absent (df : DataFrame) :
  has_column "playlists_found" df = false →
  assign_playlists_found df = (Raise (KeyError "playlists_found"), []).
Proof.
  intros Hdt%has_column_false. unfold assign_playlists_found. by rewrite Hdt.
Qed.

Lemma has_column_map_rows_same c g (df : DataFrame) :
  has_column c (map_rows c g df) = true.
Proof.
  unfold has_column, map_rows. cbn. rewrite lookup_insert_eq.
  by apply bool_decide_eq_true_2.
Qed.

Lemma cell_of_insert_ne c c' v (r : gmap string cell) :
  c ≠ c' → cell_of c' (<[c := v]> r) = cell_of c' r.
Proof. intros Hc. unfold cell_of. by rewrite lookup_insert_ne. Qed.

Lemma ids_of_normalize_row (df : DataFrame) (r : gmap string cell) :
  ids_of (normalize_row df r) = ids_of r.
Proof. unfold ids_of, normalize_row. by rewrite !lookup_insert_ne. Qed.

(** The five assignments, composed, are the row-wise normalisation. *)
Lemma map_rows_normalized (df : DataFrame) :
  let df1 := map_rows "dates"
               (λ r, strftime (parse_datetime true (cell_of "dates" <$> rows df)
                                 (cell_of "dates" r))) df in
  let df2 := map_rows "names" (λ r, upper_ascii (cell_of "names" r)) df1 in
  let df3 := map_rows "genres"
               (λ r, CList (value_of (parse_genres (cell_of "genres" r)))) df2 in
  let df4 := map_rows "feat_track_ids"
               (λ r, CList (value_of (parse_track_ids (cell_of "feat_track_ids" r)))) df3 in
  map_rows "playlists_found"
    (playlists_found_value (dtypes df4 !! "playlists_found"%string)) df4
  = normalized df.
Proof.
  unfold normalized, map_rows. cbn. f_equal.
  rewrite <- !list_fmap_compose. apply list_fmap_ext. intros i r _. cbn.
  rewrite !lookup_insert_ne by done.
  unfold normalize_row, playlists_found_value.
  by rewrite !cell_of_insert_ne by done.
Qed.

Lemma normalize_cleanable (df : DataFrame) :
  cleanable df = true →
  ∃ msgs, normalize df
          = (Ok (normalized df, duplicated (ids_of <$> rows df)), msgs).
Proof.
  unfold cleanable. rewrite !andb_true_iff.
  intros ((((((Hdates & Hids) & Hnames%bool_decide_eq_true_1) & Hgenres)
             & Hparse) & Hfeat) & Hplaylists).
  pose proof (map_rows_normalized df) as Hnorm. cbn zeta in Hnorm.
  unfold normalize.
  rewrite W_bind_run, assign_dates_present by done.
  destruct (warn_invalid_dates_returns
              (map_rows "dates"
                 (λ r, strftime (parse_datetime true (cell_of "dates" <$> rows df)
                                   (cell_of "dates" r))) df)) as [m2 Hwarn].
  { apply has_column_map_rows_same. }
  { by rewrite has_column_map_rows. }
  rewrite W_bind_run, Hwarn.
  rewrite W_bind_run, assign_names_object
    by (unfold map_rows; cbn; by rewrite lookup_insert_ne).
  match goal with
  | |- context [assign_genres ?df2] =>
      destruct (assign_genres_returns df2) as [m4 Hg]
  end.
  { by rewrite !has_column_map_rows. }
  { unfold map_rows. cbn. rewrite !forallb_fmap.
    etrans; [|exact Hparse]. apply forallb_ext_eq. intros r.
    by rewrite !cell_of_insert_ne. }
  rewrite W_bind_run, Hg.
  match goal with
  | |- context [assign_feat_track_ids ?df3] =>
      destruct (assign_feat_track_ids_present df3) as [m5 Hf]
  end.
  { by rewrite !has_column_map_rows. }
  rewrite W_bind_run, Hf.
  rewrite W_bind_run, assign_playlists_found_present
    by (by rewrite !has_column_map_rows).
  rewrite Hnorm.
  destruct (has_column_true _ _ Hids) as [dt Hdt].
  rewrite W_bind_run. unfold quiet.
  rewrite (column_present "ids" dt)
    by (cbn; unfold normalized_dtypes; by rewrite !lookup_insert_ne).
  assert (cell_of "ids" <$> rows (normalized df) = ids_of <$> rows df) as ->.
  { unfold normalized. cbn [rows]. rewrite <- list_fmap_compose.
    apply list_fmap_ext. intros i r _. apply ids_of_normalize_row. }
  by eexists.
Qed.

Lemma normalize_not_cleanable (df : DataFrame) :
  cleanable df = false → ∃ e msgs, normalize df = (Raise e, msgs).
Proof.
  intros Hno. unfold normalize. rewrite W_bind_run.
  destruct (has_column "dates" df) eqn:Hdates;
    [|rewrite assign_dates_absent by done; by do 2 eexists].
  rewrite assign_dates_present by done. rewrite W_bind_run.
  destruct (warn_invalid_dates _) as [[[]|e] m2]; [|by do 2 eexists].
  rewrite W_bind_run.
  destruct (decide (dtypes df !! "names"%string = Some DObject)) as [Hnames|Hnames];
    cycle 1.
  { match goal with
    | |- context [assign_names ?df1] =>
        destruct (assign_names_refused df1) as [e ->]
    end; [|by do 2 eexists].
    unfold map_rows; cbn; by rewrite lookup_insert_ne. }
  rewrite assign_names_object
    by (unfold map_rows; cbn; by rewrite lookup_insert_ne).
  rewrite W_bind_run.
  destruct (has_column "genres" df
            && forallb (λ r, returns (parse_genres (cell_of "genres" r))) (rows df))
    eqn:Hgenres; cycle 1.
  { match goal with
    | |- context [assign_genres ?df2] =>
        destruct (assign_genres_raises df2) as (e & m & ->)
    end; [|by do 2 eexists].
    apply andb_false_iff in Hgenres as [Hg|Hg]; [left|right].
    - by rewrite !has_column_map_rows.
    - unfold map_rows. cbn. rewrite !forallb_fmap.
      etrans; [|exact Hg]. apply forallb_ext_eq. intros r.
      by rewrite !cell_of_insert_ne. }
  apply andb_true_iff in Hgenres as [Hg Hparse].
  match goal with
  | |- context [assign_genres ?df2] =>
      destruct (assign_genres_returns df2) as [m4 ->]
  end.
  { by rewrite !has_column_map_rows. }
  { unfold map_rows. cbn. rewrite !forallb_fmap.
    etrans; [|exact Hparse]. apply forallb_ext_eq. intros r.
    by rewrite !cell_of_insert_ne. }
  rewrite W_bind_run.
  destruct (has_column "feat_track_ids" df) eqn:Hfeat; cycle 1.
  { rewrite assign_feat_track_ids_absent by (by rewrite !has_column_map_rows).
    by do 2 eexists. }
  match goal with
  | |- context [assign_feat_track_ids ?df3] =>
      destruct (assign_feat_track_ids_present df3) as [m5 ->]
  end.
  { by rewrite !has_column_map_rows. }
  rewrite W_bind_run.
  destruct (has_column "playlists_found" df) eqn:Hplaylists; cycle 1.
  { rewrite assign_playlists_found_absent by (by rewrite !has_column_map_rows).
    by do 2 eexists. }
  rewrite assign_playlists_found_present by (by rewrite !has_column_map_rows).
  rewrite W_bind_run. unfold quiet.
  destruct (has_column "ids" df) eqn:Hids; cycle 1.
  { rewrite (column_absent "ids").
    - by do 2 eexists.
    - apply has_column_false. by rewrite !has_column_map_rows. }
  exfalso. unfold cleanable in Hno.
  rewrite Hdates, Hids, Hg, Hparse, Hfeat, Hplaylists in Hno.
  by rewrite bool_decide_eq_true_2 in Hno.
Qed.

Lemma normalize_returns (df frame : DataFrame) (mask : list bool) msgs :
  normalize df = (Ok (frame, mask), msgs) →
  cleanable df = true
  ∧ frame = normalized df
  ∧ mask = duplicated (ids_of <$> rows df).
Proof.
  intros Hrun. destruct (cleanable df) eqn:Hc.
  - destruct (normalize_cleanable df Hc) as [msgs' Hrun'].
    rewrite Hrun in Hrun'. by simplify_eq.
  - destruct (normalize_not_cleanable df Hc) as (e & msgs' & Hrun').
    by rewrite Hrun in Hrun'.
Qed.

End StatementFacts.

(** ** [clean_data] in the world *)

Section CleanDataFacts.
Context `{PyLib}.

Lemma clean_data_cleanable (df : nat) (w : world) :
  (df < length (heap w))%nat →
  cleanable (frame_at w df) = true →
  ∃ msgs, clean_data df w
          = (Ok (length (heap w), S (length (heap w))), cleaned df w msgs).
Proof.
  intros Hdf Hc. pose proof (clean_data_run df w Hdf) as Hrun.
  destruct (normalize_cleanable _ Hc) as [msgs Hn]. rewrite Hn in Hrun.
  eexists. exact Hrun.
Qed.

Lemma clean_data_not_cleanable (df : nat) (w : world) :
  (df < length (heap w))%nat →
  cleanable (frame_at w df) = false →
  ∃ e w', clean_data df w = (Raise e, w').
Proof.
  intros Hdf Hc. pose proof (clean_data_run df w Hdf) as Hrun.
  destruct (normalize_not_cleanable _ Hc) as (e & msgs & Hn). rewrite Hn in Hrun.
  destruct Hrun as [w' Hrun]. by exists e, w'.
Qed.

Lemma clean_data_returns (df : nat) (w w' : world) (clean duplicate : nat) :
  (df < length (heap w))%nat →
  clean_data df w = (Ok (clean, duplicate), w') →
  cleanable (frame_at w df) = true
  ∧ clean = length (heap w) ∧ duplicate = S (length (heap w))
  ∧ ∃ msgs, w' = cleaned df w msgs.
Proof.
  intros Hdf Hrun. destruct (cleanable (frame_at w df)) eqn:Hc.
  - destruct (clean_data_cleanable df w Hdf Hc) as [msgs Hrun'].
    rewrite Hrun in Hrun'. simplify_eq. eauto.
  - destruct (clean_data_not_cleanable df w Hdf Hc) as (e & w'' & Hrun').
    by rewrite Hrun in Hrun'.
Qed.

Lemma frame_at_cleaned_caller (df : nat) (w : world) msgs :
  (df < length (heap w))%nat →
  frame_at (cleaned df w msgs) df = normalized (frame_at w df).
Proof.
  intros Hdf. unfold frame_at at 1, cleaned. cbn.
  rewrite lookup_app_l by (by rewrite length_insert).
  by rewrite list_lookup_insert_eq.
Qed.

Lemma frame_at_cleaned_clean (df : nat) (w : world) msgs :
  frame_at (cleaned df w msgs) (length (heap w))
  = select_rows (negb <$> duplicated (ids_of <$> rows (frame_at w df)))
      (normalized (frame_at w df)).
Proof.
  unfold frame_at at 1, cleaned. cbn.
  by rewrite (list_lookup_middle _ _ _ (length (heap w))) by (by rewrite length_insert).
Qed.

Lemma frame_at_cleaned_duplicate (df : nat) (w : world) msgs :
  frame_at (cleaned df w msgs) (S (length (heap w)))
  = select_rows (duplicated (ids_of <$> rows (frame_at w df)))
      (normalized (frame_at w df)).
Proof.
  unfold frame_at at 1, cleaned. cbn.
  rewrite lookup_app_r by (rewrite length_insert; lia).
  rewrite length_insert. by replace (S _ - _)%nat with 1%nat by lia.
Qed.

Lemma ids_of_normalized (df : DataFrame) :
  ids_of <$> rows (normalized df) = ids_of <$> rows df.
Proof.
  unfold normalized. cbn [rows]. rewrite <- list_fmap_compose.
  apply list_fmap_ext. intros i r _. apply ids_of_normalize_row.
Qed.

(** The two objects [clean_data] returns hold the partition of the
    normalised rows by [ids]. *)
Lemma cleaned_partition (df : nat) (w : world) msgs :
  (rows (frame_at (cleaned df w msgs) (length (heap w))),
   rows (frame_at (cleaned df w msgs) (S (length (heap w)))))
  = partition ids_of (rows (normalized (frame_at w df))).
Proof.
  rewrite frame_at_cleaned_clean, frame_at_cleaned_duplicate.
  unfold partition. by rewrite ids_of_normalized.
Qed.

End CleanDataFacts.

(** ** Partitioning by [ids] *)

(** C1. Partitioning by the primary key [ids] is first-occurrence-wins:
    the clean part is made of the records, in input order, at the
    positions whose [ids] value occurs at no earlier position, the
    rejected part of the records, in input order, at the positions whose
    [ids] value has been seen before; keys [A, B, A, A, C] give
    clean = [first A, B, C] and rejected = [second A, third A]. *)
Theorem partition_first_occurrence_wins :
  (∀ records : list (gmap string cell),
     partition ids_of records =
       (omap (λ i, records !! i)
          (filter (λ i, seen_before (ids_of <$> records) i = false)
             (seq 0 (length records))),
        omap (λ i, records !! i)
          (filter (λ i, seen_before (ids_of <$> records) i = true)
             (seq 0 (length records)))))
  ∧ partition ids_of
      [Example.keyed "A" 1; Example.keyed "B" 2; Example.keyed "A" 3;
       Example.keyed "A" 4; Example.keyed "C" 5]
    = ([Example.keyed "A" 1; Example.keyed "B" 2; Example.keyed "C" 5],
       [Example.keyed "A" 3; Example.keyed "A" 4]).
Proof.
  split.
  - intros records. apply partition_by_position.
  - vm_compute. reflexivity.
Qed.

(** C2. For every input sequence, the empty one included, the lengths
    of the clean and rejected parts sum to the length of the input, no
    [ids] value occurs twice in the clean part, and every rejected record
    has an [ids] value that occurs in the clean part. *)
Theorem partition_invariants (records : list (gmap string cell)) :
  ((length (partition ids_of records).1 + length (partition ids_of records).2
    = length records)%nat
   ∧ NoDup (ids_of <$> (partition ids_of records).1)
   ∧ ∀ r, r ∈ (partition ids_of records).2
          → ids_of r ∈ ids_of <$> (partition ids_of records).1)
  ∧ partition ids_of ([] : list (gmap string cell)) = ([], []).
Proof.
  split; [|reflexivity].
  destruct (partition_invariant ids_of records) as (Hlen & Hnodup & _ & Hrej).
  done.
Qed.

(** ** Normalisation in place *)

(** C10, as the code has it. [clean_data] assigns the columns [dates],
    [names], [genres], [feat_track_ids] and [playlists_found] of the frame
    it is given: when it returns, the caller's object holds the normalised
    rows; the number of rows, their order and every other column are as
    loaded, no other object is touched, and the two partitions returned
    are new objects holding the partition of the normalised rows. *)
Theorem clean_data_normalizes_in_place `{PyLib} (df : nat) (w w' : world)
    (clean duplicate : nat) :
  (df < length (heap w))%nat →
  clean_data df w = (Ok (clean, duplicate), w') →
  frame_at w' df = normalized (frame_at w df)
  ∧ length (rows (frame_at w' df)) = length (rows (frame_at w df))
  ∧ (∀ i r, rows (frame_at w df) !! i = Some r →
       ∃ r', rows (frame_at w' df) !! i = Some r'
             ∧ ∀ c, c ∉ assigned_columns → r' !! c = r !! c)
  ∧ clean ≠ df ∧ duplicate ≠ df ∧ clean ≠ duplicate
  ∧ (∀ other, (other < length (heap w))%nat → other ≠ df →
       frame_at w' other = frame_at w other)
  ∧ (rows (frame_at w' clean), rows (frame_at w' duplicate))
    = partition ids_of (rows (frame_at w' df)).
Proof.
  intros Hdf Hrun.
  destruct (clean_data_returns df w w' clean duplicate Hdf Hrun)
    as (_ & -> & -> & msgs & ->).
  rewrite cleaned_partition, !frame_at_cleaned_caller by done.
  split_and!; try done; try lia.
  - unfold normalized. cbn [rows]. by rewrite length_fmap.
  - intros i r Hr. exists (normalize_row (frame_at w df) r). split.
    + unfold normalized. cbn [rows]. by rewrite list_lookup_fmap, Hr.
    + intros c Hc. unfold normalize_row, assigned_columns in *.
      rewrite !lookup_insert_ne; [done|set_solver..].
  - intros other Hother Hne. unfold frame_at, cleaned. cbn.
    rewrite lookup_app_l by (by rewrite length_insert).
    by rewrite list_lookup_insert_ne.
Qed.

Lemma clean_data_normalizes_in_place_witness :
  frame_at (@clean_data Sample.lib 0 Example.loaded).2 0
  = @normalized Sample.lib (frame_at Example.loaded 0)
  ∧ (rows (frame_at (@clean_data Sample.lib 0 Example.loaded).2 1),
     rows (frame_at (@clean_data Sample.lib 0 Example.loaded).2 2))
    = partition ids_of (rows (frame_at (@clean_data Sample.lib 0 Example.loaded).2 0)).
Proof.
  pose proof (@clean_data_normalizes_in_place Sample.lib 0 Example.loaded
                (@clean_data Sample.lib 0 Example.loaded).2 1 2) as Hthm.
  destruct Hthm as (Hframe & _ & _ & _ & _ & _ & _ & Hparts).
  - cbn. lia.
  - vm_compute. reflexivity.
  - split; [exact Hframe|exact Hparts].
Defined.

(** C10, as stated, fails: after [clean_data] has returned, the frame
    the caller loaded holds upper-cased names and parsed genre lists. *)
Lemma clean_data_overwrites_loaded_frame :
  (@clean_data Sample.lib 0 Example.loaded).1 = Ok (1, 2)%nat
  ∧ cell_of "names" <$> rows (frame_at Example.loaded 0)
    = [CStr (lit "artist one"); CStr (lit "artist two"); CStr (lit "artist one")]
  ∧ cell_of "names"
      <$> rows (frame_at (@clean_data Sample.lib 0 Example.loaded).2 0)
    = [CStr (lit "ARTIST ONE"); CStr (lit "ARTIST TWO"); CStr (lit "ARTIST ONE")]
  ∧ cell_of "genres"
      <$> rows (frame_at (@clean_data Sample.lib 0 Example.loaded).2 0)
    = [CList [lit "pop"]; CList [lit "pop"; lit "rock"];
       CList [lit "[pop"; lit "rock"]]
  ∧ frame_at (@clean_data Sample.lib 0 Example.loaded).2 0
    ≠ frame_at Example.loaded 0.
Proof.
  split_and!; try (vm_compute; reflexivity).
  intros Heq. apply (f_equal (λ f, cell_of "names" <$> rows f)) in Heq.
  vm_compute in Heq. discriminate.
Qed.

(** ** Dates *)

(** C8. A date that does not parse becomes the missing value of its row
    and aborts nothing: whatever the dates are, [clean_data] returns on a
    frame that has the columns it reads; the row stays at its position
    with [dates] missing and its [ids] unchanged, no row is dropped, and
    the row is in the rejected part when its [ids] value occurs earlier,
    in the clean part otherwise. *)
Theorem unparseable_date_keeps_row `{PyLib} (df : nat) (w : world) (i : nat)
    (r : gmap string cell) :
  (df < length (heap w))%nat →
  cleanable (frame_at w df) = true →
  rows (frame_at w df) !! i = Some r →
  parse_datetime true (cell_of "dates" <$> rows (frame_at w df)) (cell_of "dates" r)
  = None →
  ∃ clean duplicate w' r',
    clean_data df w = (Ok (clean, duplicate), w')
    ∧ rows (frame_at w' df) !! i = Some r'
    ∧ r' !! "dates"%string = Some NaN
    ∧ ids_of r' = ids_of r
    ∧ (length (rows (frame_at w' clean)) + length (rows (frame_at w' duplicate))
       = length (rows (frame_at w df)))%nat
    ∧ if seen_before (ids_of <$> rows (frame_at w df)) i
      then r' ∈ rows (frame_at w' duplicate)
      else r' ∈ rows (frame_at w' clean).
Proof.
  intros Hdf Hc Hr Hdate.
  destruct (clean_data_cleanable df w Hdf Hc) as [msgs Hrun].
  set (f := frame_at w df) in *.
  assert (rows (normalized f) !! i = Some (normalize_row f r)) as Hr'.
  { unfold normalized. cbn [rows]. by rewrite list_lookup_fmap, Hr. }
  pose proof (cleaned_partition df w msgs) as Hparts. fold f in Hparts.
  pose proof (f_equal fst Hparts) as Hclean.
  pose proof (f_equal snd Hparts) as Hduplicate.
  cbn [fst snd] in Hclean, Hduplicate. clear Hparts.
  exists (length (heap w)), (S (length (heap w))), (cleaned df w msgs),
    (normalize_row f r).
  rewrite frame_at_cleaned_caller, Hclean, Hduplicate by done. fold f.
  split_and!; try done.
  - unfold normalize_row. rewrite !lookup_insert_ne by done.
    by rewrite lookup_insert_eq, Hdate.
  - apply ids_of_normalize_row.
  - destruct (partition_invariant ids_of (rows (normalized f))) as (-> & _).
    unfold normalized. cbn [rows]. by rewrite length_fmap.
  - rewrite <- ids_of_normalized. by apply partition_position.
Qed.

Lemma unparseable_date_keeps_row_witness :
  ∃ clean duplicate w' r',
    @clean_data Sample.lib 0 Example.loaded = (Ok (clean, duplicate), w')
    ∧ rows (frame_at w' 0) !! 2%nat = Some r'
    ∧ r' !! "dates"%string = Some NaN
    ∧ ids_of r' = ids_of Example.artist_one_again
    ∧ (length (rows (frame_at w' clean)) + length (rows (frame_at w' duplicate))
       = 3)%nat
    ∧ r' ∈ rows (frame_at w' duplicate).
Proof.
  apply (@unparseable_date_keeps_row Sample.lib 0 Example.loaded 2
           Example.artist_one_again).
  - cbn. lia.
  - vm_compute. reflexivity.
  - reflexivity.
  - vm_compute. reflexivity.
Defined.

(** ** The JSON artifact *)

Section JsonFacts.
Context `{PyLib}.

Lemma row_get_returns dts (row : gmap string cell) c x :
  row_get dts row c = Ok x → x = cell_of c row.
Proof. unfold row_get. destruct (dts !! c); by intros [= <-]. Qed.

(** What [json_record] returns when it returns. *)
Lemma json_record_returns dts (row : gmap string cell) (o : json) :
  json_record dts row = Ok o →
  ∃ monthly_listeners popularity followers num_releases num_tracks,
    int_or_zero (cell_of "monthly_listeners" row) = Ok monthly_listeners
    ∧ int_or_zero (cell_of "popularity" row) = Ok popularity
    ∧ int_or_zero (cell_of "followers" row) = Ok followers
    ∧ int_or_zero (cell_of "num_releases" row) = Ok num_releases
    ∧ int_or_zero (cell_of "num_tracks" row) = Ok num_tracks
    ∧ o = JObject [
        ("dates", json_of_cell (cell_of "dates" row));
        ("ids", JString (py_str (cell_of "ids" row)));
        ("names", JString (py_str (cell_of "names" row)));
        ("monthly_listeners", JInt monthly_listeners);
        ("popularity", JInt popularity);
        ("followers", JInt followers);
        ("genres", json_of_cell (cell_of "genres" row));
        ("first_release", JString (py_str (cell_of "first_release" row)));
        ("last_release", JString (py_str (cell_of "last_release" row)));
        ("num_releases", JInt num_releases);
        ("num_tracks", JInt num_tracks);
        ("playlists_found", JString (py_str (cell_of "playlists_found" row)));
        ("feat_track_ids", json_of_cell (cell_of "feat_track_ids" row))]%string.
Proof.
  unfold json_record, row_get, cell_of.
  repeat first
    [ progress cbn [mbind result_bind mret result_ret]
    | match goal with
      | |- context [dts !! ?c] => destruct (dts !! c); [|by intros ?]
      | |- context [int_or_zero ?x] =>
          destruct (int_or_zero x) eqn:?; [|by intros ?]
      end ].
  intros [= <-]. by do 5 eexists.
Qed.

End JsonFacts.

(** C6, as the code has it. In the object of a record, each of
    [monthly_listeners], [popularity], [followers], [num_releases] and
    [num_tracks] whose value is missing is the integer 0; a value that is
    there goes through [int], and the record is not produced when [int]
    refuses it; [first_release] and [last_release] are not coerced: they
    are the text of the value, ["nan"] when it is missing. *)
Theorem json_record_numeric_fields `{PyLib} (dts : gmap string dtype)
    (row : gmap string cell) :
  (∀ o, json_record dts row = Ok o →
     (∀ c, c ∈ coerced_fields → cell_of c row = NaN →
        json_member c o = Some (JInt 0))
     ∧ (∀ c, c ∈ release_fields →
          json_member c o = Some (JString (py_str (cell_of c row)))))
  ∧ py_str NaN = lit "nan"
  ∧ (∀ c e, c ∈ coerced_fields → notna (cell_of c row) = true →
       py_int (cell_of c row) = Raise e →
       ∃ e', json_record dts row = Raise e').
Proof.
  split_and!; [|done|].
  - intros o (ml & p & f & nr & nt & Hml & Hp & Hf & Hnr & Hnt & ->)%json_record_returns.
    unfold coerced_fields, release_fields. split.
    + intros c Hc Hnan. unfold int_or_zero in *.
      repeat (apply elem_of_cons in Hc as [->|Hc]);
        [rewrite Hnan in *; cbn [notna] in *; simplify_eq; reflexivity..
        |by apply elem_of_nil in Hc].
    + intros c Hc.
      repeat (apply elem_of_cons in Hc as [->|Hc]);
        [reflexivity..|by apply elem_of_nil in Hc].
  - intros c e Hc Hnotna Hint.
    destruct (json_record dts row) as [o|e'] eqn:Hrecord; [|by eexists].
    apply json_record_returns in Hrecord
      as (ml & p & f & nr & nt & Hml & Hp & Hf & Hnr & Hnt & _).
    unfold int_or_zero, coerced_fields in *.
    repeat (apply elem_of_cons in Hc as [->|Hc]);
      [rewrite Hnotna in *; congruence..
      |by apply elem_of_nil in Hc].
Qed.

Lemma json_record_numeric_fields_witness :
  (∃ o, @json_record Sample.lib Example.schema Example.artist_one_again = Ok o
        ∧ json_member "popularity" o = Some (JInt 0)
        ∧ json_member "last_release" o = Some (JString (lit "2024")))
  ∧ ∃ e, @json_record Sample.lib Example.schema Example.artist_three = Raise e.
Proof.
  split.
  - destruct (@json_record Sample.lib Example.schema Example.artist_one_again)
      as [o|e] eqn:Hrecord; [|by vm_compute in Hrecord].
    exists o.
    destruct (@json_record_numeric_fields Sample.lib Example.schema
                Example.artist_one_again) as (Hreturns & _ & _).
    destruct (Hreturns o Hrecord) as [Hzero Htext].
    split; [done|]. split.
    + apply Hzero; [|reflexivity]. unfold coerced_fields. set_solver.
    + rewrite (Htext "last_release"%string); [reflexivity|].
      unfold release_fields. set_solver.
  - destruct (@json_record_numeric_fields Sample.lib Example.schema
                Example.artist_three) as (_ & _ & Hraises).
    apply (Hraises "popularity"%string ValueError);
      [unfold coerced_fields; set_solver|reflexivity|reflexivity].
Defined.

(** C6, as stated, fails: a missing [first_release] is emitted as the
    text ["nan"], and a popularity that is no number raises. *)
Lemma json_record_missing_release_is_text :
  cell_of "first_release" Example.artist_one_again = NaN
  ∧ (∃ o, @json_record Sample.lib Example.schema Example.artist_one_again = Ok o
          ∧ json_member "first_release" o = Some (JString (lit "nan")))
  ∧ cell_of "popularity" Example.artist_three = CStr (lit "eighty")
  ∧ @json_record Sample.lib Example.schema Example.artist_three = Raise ValueError.
Proof.
  split_and!; [reflexivity| |reflexivity|vm_compute; reflexivity].
  eexists. split; [vm_compute; reflexivity|reflexivity].
Qed.


(** ** The artifacts *)

Lemma in_place_bind_start {B : Type} (w : world) (df : nat) statement (k : unit → M B) :
  (in_place df statement ≫= k) w =
    match statement (frame_at w df) with
    | (Ok frame, msgs) => k () (updated w df frame msgs)
    | (Raise e, msgs) => (Raise e, add_log msgs w)
    end.
Proof.
  rewrite bind_run. unfold in_place, updated.
  by destruct (statement (frame_at w df)) as [[frame|e] msgs].
Qed.

Lemma frame_at_updated_ne (w : world) (df other : nat) frame msgs :
  other ≠ df → frame_at (updated w df frame msgs) other = frame_at w other.
Proof. intros Hne. unfold frame_at, updated. cbn. by rewrite list_lookup_insert_ne. Qed.

Lemma frame_at_alloc_old (w : world) (frame : DataFrame) (df : nat) :
  (df < length (heap w))%nat →
  frame_at (set_heap (heap w ++ [frame]) w) df = frame_at w df.
Proof. intros Hdf. unfold frame_at. cbn. by rewrite lookup_app_l. Qed.

Lemma frame_at_alloc_new (w : world) (frame : DataFrame) :
  frame_at (set_heap (heap w ++ [frame]) w) (length (heap w)) = frame.
Proof. unfold frame_at. cbn. by rewrite list_lookup_middle. Qed.

Lemma paths_differ (self : DataCleaner) :
  clean_json_path self ≠ duplicate_csv_path self.
Proof.
  unfold clean_json_path, duplicate_csv_path. intros Heq.
  apply (f_equal length) in Heq. rewrite !length_app in Heq. cbn in Heq. lia.
Qed.

Section BackupFacts.
Context `{PyLib}.

(** What [create_backup_files] has written when it returns. *)
Lemma create_backup_files_returns (self : DataCleaner) (clean duplicate : nat)
    (w w' : world) :
  (clean < length (heap w))%nat →
  create_backup_files self clean duplicate w = (Ok (), w') →
  ∃ with_genres table document msgs msgs',
    stringify "genres" (frame_at w duplicate) = (Ok with_genres, msgs)
    ∧ stringify "feat_track_ids" with_genres = (Ok table, msgs')
    ∧ json_data (frame_at w clean) = Ok document
    ∧ target w' = <[clean_json_path self := JsonArtifact document]>
                    (<[duplicate_csv_path self := CsvArtifact table]> (target w)).
Proof.
  intros Hc. unfold create_backup_files, try_logged, copy.
  rewrite bind_run. unfold deref at 1. rewrite bind_run. unfold alloc at 1.
  set (w1 := set_heap (heap w ++ [frame_at w duplicate]) w).
  assert (length (heap w) < length (heap w1))%nat as Hnew.
  { unfold w1. cbn. rewrite length_app. cbn. lia. }
  rewrite in_place_bind_start. unfold w1 at 1. rewrite frame_at_alloc_new.
  destruct (stringify "genres" (frame_at w duplicate)) as [[with_genres|e] msgs]
    eqn:Hgenres; [|done].
  rewrite in_place_bind by done.
  destruct (stringify "feat_track_ids" with_genres) as [[table|e] msgs']
    eqn:Hfeat; [|done].
  rewrite deref_bind by done.
  unfold write_file, info, deref, emit, quiet.
  rewrite !bind_run. cbn [fst snd].
  unfold frame_at, updated, w1. cbn -[clean_json_path duplicate_csv_path].
  rewrite list_lookup_insert_ne, lookup_app_l by lia.
  fold (frame_at w clean).
  destruct (json_data (frame_at w clean)) as [document|e] eqn:Hdoc; [|done].
  unfold mbind, M_bind. cbn -[clean_json_path duplicate_csv_path].
  intros [= <-]. cbn -[clean_json_path duplicate_csv_path].
  by exists with_genres, table, document, msgs, msgs'.
Qed.

Lemma stringify_present c (df : DataFrame) :
  has_column c df = true →
  stringify c df = (Ok (map_rows c (λ r, CStr (py_str (cell_of c r))) df), []).
Proof.
  intros [dt Hdt]%has_column_true. unfold stringify.
  rewrite (column_present _ _ _ Hdt). cbn.
  by rewrite (assign_fmap c (λ x, CStr (py_str x)) (cell_of c)).
Qed.

Lemma stringify_absent c (df : DataFrame) :
  has_column c df = false → stringify c df = (Raise (KeyError c), []).
Proof.
  intros Hdt%has_column_false. unfold stringify. by rewrite (column_absent _ _ Hdt).
Qed.

Lemma stringify_returns c (df frame : DataFrame) msgs :
  stringify c df = (Ok frame, msgs) →
  frame = map_rows c (λ r, CStr (py_str (cell_of c r))) df.
Proof.
  destruct (has_column c df) eqn:Hc.
  - rewrite stringify_present by done. by intros [= <- _].
  - by rewrite stringify_absent.
Qed.

Lemma json_records_returns dts (rws : list (gmap string cell)) (data : list json) :
  json_records dts rws = Ok data →
  Forall2 (λ row o, json_record dts row = Ok o) rws data.
Proof.
  revert data. induction rws as [|row rws IH]; intros data; cbn.
  - intros [= <-]. constructor.
  - destruct (json_record dts row) as [o|e] eqn:Hrow; [|done]. cbn.
    destruct (json_records dts rws) as [os|e]; [|done]. cbn.
    intros [= <-]. constructor; [done|by apply IH].
Qed.

Lemma json_data_returns (clean : DataFrame) (document : json) :
  json_data clean = Ok document →
  ∃ data, json_records (dtypes clean) (rows clean) = Ok data
          ∧ document = JObject [("row_count", JInt (Z.of_nat (length (rows clean))));
                                ("data", JArray data)]%string.
Proof.
  unfold json_data.
  destruct (json_records (dtypes clean) (rows clean)) as [data|e]; [|done].
  cbn. intros [= <-]. by exists data.
Qed.

End BackupFacts.

(** C9. When [create_backup_files] returns, the output directory holds
    at [/target/data_<token>.json] an object whose [row_count] is the
    number of clean rows and whose [data] lists, in order, one object per
    clean row, with [genres] and [feat_track_ids] handed over as they are
    in the row (a list stays an array of strings); and it holds at
    [/target/data_reject_<token>.csv] the duplicate rows, their two list
    columns turned to text. *)
Theorem create_backup_files_artifacts `{PyLib} (self : DataCleaner)
    (clean duplicate : nat) (w w' : world) :
  (clean < length (heap w))%nat →
  create_backup_files self clean duplicate w = (Ok (), w') →
  ∃ data table,
    target w' !! clean_json_path self
    = Some (JsonArtifact
              (JObject [("row_count",
                         JInt (Z.of_nat (length (rows (frame_at w clean)))));
                        ("data", JArray data)]%string))
    ∧ Forall2 (λ row o,
                 json_record (dtypes (frame_at w clean)) row = Ok o
                 ∧ json_member "genres" o = Some (json_of_cell (cell_of "genres" row))
                 ∧ json_member "feat_track_ids" o
                   = Some (json_of_cell (cell_of "feat_track_ids" row)))
        (rows (frame_at w clean)) data
    ∧ (∀ l, json_of_cell (CList l) = JArray (JString <$> l))
    ∧ target w' !! duplicate_csv_path self = Some (CsvArtifact table)
    ∧ rows table
      = (λ r, <["feat_track_ids" := CStr (py_str (cell_of "feat_track_ids" r))]>
                (<["genres" := CStr (py_str (cell_of "genres" r))]> r))
          <$> rows (frame_at w duplicate)
    ∧ clean_json_path self = lit "/target/data_" ++ test_datetime self ++ lit ".json"
    ∧ duplicate_csv_path self
      = lit "/target/data_reject_" ++ test_datetime self ++ lit ".csv".
Proof.
  intros Hc Hrun.
  destruct (create_backup_files_returns self clean duplicate w w' Hc Hrun)
    as (with_genres & table & document & msgs & msgs' & Hg & Hf & Hdoc & Htarget).
  apply json_data_returns in Hdoc as (data & Hdata & ->).
  apply stringify_returns in Hg as ->. apply stringify_returns in Hf as ->.
  exists data. eexists. rewrite Htarget. split_and!; try done.
  - by rewrite lookup_insert_eq.
  - apply json_records_returns in Hdata.
    eapply Forall2_impl; [exact Hdata|]. cbn.
    intros row o Hrow. split; [done|].
    by apply json_record_returns
      in Hrow as (ml & p & f & nr & nt & _ & _ & _ & _ & _ & ->).
  - rewrite lookup_insert_ne by apply paths_differ. by rewrite lookup_insert_eq.
  - unfold map_rows. cbn [rows]. rewrite <- list_fmap_compose.
    apply list_fmap_ext. intros i r _. cbn.
    by rewrite cell_of_insert_ne.
Qed.

Lemma create_backup_files_artifacts_witness :
  ∃ data table,
    target Example.exported !! lit "/target/data_20240101.json"
    = Some (JsonArtifact (JObject [("row_count", JInt 2); ("data", JArray data)]%string))
    ∧ length data = 2%nat
    ∧ target Example.exported !! lit "/target/data_reject_20240101.csv"
      = Some (CsvArtifact table)
    ∧ length (rows table) = 1%nat.
Proof.
  destruct (@create_backup_files_artifacts Sample.lib Example.cleaner 1 2
              Example.partitioned Example.exported)
    as (data & table & Hjson & Hdata & _ & Hcsv & Hrows & _ & _).
  - vm_compute. lia.
  - vm_compute. reflexivity.
  - exists data, table. split_and!.
    + exact Hjson.
    + apply Forall2_length in Hdata. rewrite <- Hdata. reflexivity.
    + exact Hcsv.
    + rewrite Hrows. reflexivity.
Defined.


(** ** The loader *)

(** What [read_csv] returns on a table, and the world it leaves. *)
Lemma read_csv_table (file_path : pystr) (w : world) utf8 (table : DataFrame) :
  files w !! file_path = Some (Csv utf8 table) →
  ∃ msgs, read_csv file_path w
          = (Ok (length (heap w)), add_log msgs (set_heap (heap w ++ [table]) w)).
Proof.
  intros Hfile. unfold read_csv. rewrite Hfile.
  destruct utf8; eexists;
    unfold mbind, M_bind, alloc, info, emit, warning, mret, M_ret, add_log, set_heap;
    cbn; rewrite <- ?app_assoc; reflexivity.
Qed.

(** C7, as the code has it. A missing source file is a reported error,
    and so is a file with nothing to parse (an empty file); a file that
    holds the header row only gives a frame without rows, on which
    [clean_data] returns two empty partitions. *)
Theorem read_csv_outcomes `{PyLib} (file_path : pystr) (w : world) :
  (files w !! file_path = None →
     ∃ w', read_csv file_path w = (Raise FileNotFoundError, w')
           ∧ (ERROR, MsgFailed "read_csv" FileNotFoundError) ∈ logged w')
  ∧ (files w !! file_path = Some NoColumns →
       ∃ w', read_csv file_path w = (Raise EmptyDataError, w')
             ∧ (ERROR, MsgFailed "read_csv" EmptyDataError) ∈ logged w')
  ∧ (∀ utf8 table,
       files w !! file_path = Some (Csv utf8 table) →
       rows table = [] →
       ∃ df w',
         read_csv file_path w = (Ok df, w')
         ∧ rows (frame_at w' df) = []
         ∧ (cleanable table = true →
              ∃ clean duplicate w'',
                clean_data df w' = (Ok (clean, duplicate), w'')
                ∧ rows (frame_at w'' clean) = []
                ∧ rows (frame_at w'' duplicate) = [])).
Proof.
  split_and!.
  - intros Hfile. unfold read_csv. rewrite Hfile. eexists. split; [reflexivity|].
    cbn. set_solver.
  - intros Hfile. unfold read_csv. rewrite Hfile. eexists. split; [reflexivity|].
    cbn. set_solver.
  - intros utf8 table Hfile Hrows.
    destruct (read_csv_table file_path w utf8 table Hfile) as [msgs Hread].
    set (w1 := add_log msgs (set_heap (heap w ++ [table]) w)) in *.
    assert (frame_at w1 (length (heap w)) = table) as Hframe.
    { unfold frame_at, w1. cbn. by rewrite list_lookup_middle. }
    assert (length (heap w1) = S (length (heap w))) as Hlen.
    { unfold w1. cbn. rewrite length_app. cbn. lia. }
    exists (length (heap w)), w1. split_and!; [done|by rewrite Hframe|].
    intros Hc.
    destruct (clean_data_cleanable (length (heap w)) w1) as [msgs' Hclean];
      [lia|by rewrite Hframe|].
    pose proof (cleaned_partition (length (heap w)) w1 msgs') as Hparts.
    rewrite Hframe in Hparts. unfold normalized in Hparts. cbn [rows] in Hparts.
    rewrite Hrows in Hparts. cbn in Hparts. injection Hparts as Hc1 Hc2.
    do 3 eexists. split_and!; [exact Hclean|exact Hc1|exact Hc2].
Qed.

Lemma read_csv_outcomes_witness :
  (∃ w', read_csv Example.csv_path Example.no_source = (Raise FileNotFoundError, w'))
  ∧ (∃ w', read_csv Example.csv_path Example.empty_source = (Raise EmptyDataError, w'))
  ∧ (∃ df w' clean duplicate w'',
       read_csv Example.csv_path Example.header_only_source = (Ok df, w')
       ∧ rows (frame_at w' df) = []
       ∧ @clean_data Sample.lib df w' = (Ok (clean, duplicate), w'')
       ∧ rows (frame_at w'' clean) = []
       ∧ rows (frame_at w'' duplicate) = []).
Proof.
  split_and!.
  - destruct (proj1 (@read_csv_outcomes Sample.lib Example.csv_path Example.no_source))
      as (w' & Hread & _); [reflexivity|]. by exists w'.
  - destruct (proj1 (proj2 (@read_csv_outcomes Sample.lib Example.csv_path
                              Example.empty_source)))
      as (w' & Hread & _); [reflexivity|]. by exists w'.
  - destruct (proj2 (proj2 (@read_csv_outcomes Sample.lib Example.csv_path
                              Example.header_only_source))
                true Example.header_only)
      as (df & w' & Hread & Hrows & Hclean); [reflexivity|reflexivity|].
    destruct Hclean as (clean & duplicate & w'' & Hrun & Hc & Hd);
      [vm_compute; reflexivity|].
    by exists df, w', clean, duplicate, w''.
Defined.

(** C7, as stated, fails: on a source file that is there and empty,
    [read_csv] raises instead of returning an empty frame. *)
Lemma read_csv_empty_file_raises :
  files Example.empty_source !! Example.csv_path = Some NoColumns
  ∧ (read_csv Example.csv_path Example.empty_source).1 = Raise EmptyDataError.
Proof. split; reflexivity. Qed.

(** ** The store and the driver *)

Lemma bind_returns {A B : Type} (m : M A) (f : A → M B) (w w' : world) (b : B) :
  (m ≫= f) w = (Ok b, w') → ∃ a w1, m w = (Ok a, w1) ∧ f a w1 = (Ok b, w').
Proof.
  rewrite bind_run. destruct (m w) as [[a|e] w1]; [|done]. intros Hf. by exists a, w1.
Qed.

Lemma try_logged_result {A : Type} (where_ : string) (body : M A) (w : world) :
  (try_logged where_ body w).1 = (body w).1.
Proof. unfold try_logged. by destruct (body w) as [[a|e] w']. Qed.

Lemma try_logged_returns {A : Type} (where_ : string) (body : M A) (w w' : world) a :
  try_logged where_ body w = (Ok a, w') ↔ body w = (Ok a, w').
Proof.
  unfold try_logged. destruct (body w) as [[a'|e] w1]; [done|].
  split; intros; discriminate.
Qed.

Lemma try_logged_raises {A : Type} (where_ : string) (body : M A) (w w1 : world) e :
  body w = (Raise e, w1) →
  try_logged where_ body w = (Raise e, add_log [(ERROR, MsgFailed where_ e)] w1).
Proof. intros Hbody. unfold try_logged. by rewrite Hbody. Qed.

Section StoreFacts.
Context `{PyLib}.

(** Whether the store accepts rows depends on their keys only. *)
Lemma accepts_keys (table new new' : list (gmap string cell)) :
  ids_of <$> new = ids_of <$> new' → accepts table new = accepts table new'.
Proof.
  intros Hids. unfold accepts, key_text. f_equal.
  - rewrite <- (forallb_fmap notna ids_of new), <- (forallb_fmap notna ids_of new').
    by rewrite Hids.
  - assert (∀ l : list (gmap string cell),
              (λ r, py_str (ids_of r)) <$> l = py_str <$> (ids_of <$> l)) as Hkeys.
    { intros l. by rewrite <- list_fmap_compose. }
    by rewrite !fmap_app, !Hkeys, Hids.
Qed.

Lemma ids_of_stringified (df : DataFrame) :
  ids_of <$> rows (stringified df) = ids_of <$> rows df.
Proof.
  unfold stringified, map_rows. cbn [rows]. rewrite <- !list_fmap_compose.
  apply list_fmap_ext. intros i r _. cbn. unfold ids_of.
  by rewrite !lookup_insert_ne.
Qed.

Lemma has_lists_stringify (df : DataFrame) :
  has_column "genres" df = true → has_column "feat_track_ids" df = true →
  stringify "genres" df
  = (Ok (map_rows "genres" (λ r, CStr (py_str (cell_of "genres" r))) df), [])
  ∧ stringify "feat_track_ids"
      (map_rows "genres" (λ r, CStr (py_str (cell_of "genres" r))) df)
    = (Ok (stringified df), []).
Proof.
  intros Hg Hf. split.
  - by apply stringify_present.
  - apply stringify_present. by rewrite has_column_map_rows.
Qed.

(** [insert_to_database] on two frames that have their list columns:
    it works on copies, appends to both tables when the store accepts the
    clean rows, and leaves the tables alone when it raises. *)
Lemma insert_to_database_run (clean duplicate : nat) (w : world) :
  (clean < length (heap w))%nat → (duplicate < length (heap w))%nat →
  has_column "genres" (frame_at w clean) = true →
  has_column "feat_track_ids" (frame_at w clean) = true →
  has_column "genres" (frame_at w duplicate) = true →
  has_column "feat_track_ids" (frame_at w duplicate) = true →
  ∃ w',
    insert_to_database clean duplicate w = (insert_outcome (frame_at w clean) w, w')
    ∧ data_table w'
      = match insert_outcome (frame_at w clean) w with
        | Ok _ => data_table w ++ rows (stringified (frame_at w clean))
        | Raise _ => data_table w
        end
    ∧ reject_table w'
      = match insert_outcome (frame_at w clean) w with
        | Ok _ => reject_table w ++ rows (stringified (frame_at w duplicate))
        | Raise _ => reject_table w
        end
    ∧ (∀ df, (df < length (heap w))%nat → frame_at w' df = frame_at w df)
    ∧ length (heap w') = S (S (length (heap w)))
    ∧ connected w' = connected w ∧ target w' = target w ∧ files w' = files w
    ∧ store_reachable w' = store_reachable w.
Proof.
  intros Hc Hd Hcg Hcf Hdg Hdf.
  destruct (has_lists_stringify _ Hcg Hcf) as [Hc1 Hc2].
  destruct (has_lists_stringify _ Hdg Hdf) as [Hd1 Hd2].
  unfold insert_to_database, try_logged, copy.
  rewrite bind_run. unfold deref at 1. rewrite bind_run. unfold alloc at 1.
  set (w1 := set_heap (heap w ++ [frame_at w clean]) w).
  rewrite bind_run. unfold deref at 1. rewrite bind_run. unfold alloc at 1.
  assert (frame_at w1 duplicate = frame_at w duplicate) as ->
    by (by apply frame_at_alloc_old).
  set (w2 := set_heap (heap w1 ++ [frame_at w duplicate]) w1).
  assert (length (heap w1) = S (length (heap w))) as Hl1.
  { unfold w1. cbn. rewrite length_app. cbn. lia. }
  assert (length (heap w2) = S (S (length (heap w)))) as Hl2.
  { unfold w2, w1. cbn. rewrite !length_app. cbn. lia. }
  assert (frame_at w2 (length (heap w)) = frame_at w clean) as Hfc.
  { unfold w2. rewrite frame_at_alloc_old by lia. apply frame_at_alloc_new. }
  rewrite in_place_bind_start, Hfc, Hc1.
  rewrite in_place_bind, Hc2 by lia.
  set (w3 := updated w2 _ _ _).
  assert (frame_at w3 (length (heap w1)) = frame_at w duplicate) as Hfd.
  { unfold w3. rewrite frame_at_updated_ne by lia. apply frame_at_alloc_new. }
  assert (length (heap w3) = S (S (length (heap w)))) as Hl3.
  { unfold w3, updated. cbn -[w2]. by rewrite length_insert. }
  rewrite in_place_bind_start, Hfd, Hd1.
  rewrite in_place_bind, Hd2 by lia.
  set (w4 := updated w3 _ _ _).
  assert (frame_at w4 (length (heap w)) = stringified (frame_at w clean)) as Hsc.
  { unfold w4. rewrite frame_at_updated_ne by lia.
    unfold w3. apply frame_at_updated. lia. }
  assert (frame_at w4 (length (heap w1)) = stringified (frame_at w duplicate)) as Hsd.
  { unfold w4. apply frame_at_updated. lia. }
  assert (∀ df, (df < length (heap w))%nat → frame_at w4 df = frame_at w df) as Hold.
  { intros df Hlt. unfold w4, w3.
    rewrite frame_at_updated_ne by lia. rewrite frame_at_updated_ne by lia.
    unfold w2. rewrite frame_at_alloc_old by lia.
    unfold w1. by rewrite frame_at_alloc_old by lia. }
  assert (length (heap w4) = S (S (length (heap w)))) as Hl4.
  { unfold w4, updated. cbn -[w3]. by rewrite length_insert. }
  assert (connected w4 = connected w ∧ data_table w4 = data_table w
          ∧ reject_table w4 = reject_table w ∧ target w4 = target w
          ∧ files w4 = files w ∧ store_reachable w4 = store_reachable w)
    as (Hconn4 & Hdata4 & Hreject4 & Htarget4 & Hfiles4 & Hstore4) by done.
  clearbody w4. clear w3 Hfd Hl3. clear w2 Hl2 Hfc.
  rewrite Hl1 in *. clear w1 Hl1.
  rewrite bind_run. unfold to_sql_data at 1, insert_outcome. cbn beta.
  rewrite Hconn4, Hdata4, Hsc.
  destruct (connected w) eqn:Hconn;
    [|eexists; split_and!; first [done | reflexivity]].
  destruct (accepts (data_table w) (rows (stringified (frame_at w clean))))
    eqn:Hacc; [|eexists; split_and!; first [done | reflexivity]].
  unfold len, deref, info, to_sql_reject, mbind, M_bind, mret, M_ret.
  cbn. rewrite Hconn4. cbn.
  eexists. split; [reflexivity|]. cbn.
  unfold frame_at in *. cbn. rewrite Hsd, Hreject4. split_and!; done.
Qed.

End StoreFacts.

Section DriverFacts.
Context `{PyLib}.

Lemma connect_db_run (w : world) :
  connect_db w =
    if store_reachable w
    then (Ok (), add_log [(INFO, MsgText "Database connection established successfully")]
                   (set_connected true w))
    else (Raise OperationalError,
          add_log [(ERROR, MsgFailed "connect_db" OperationalError)] w).
Proof. unfold connect_db, try_logged, info. by destruct (store_reachable w). Qed.

Lemma create_tables_run (w : world) :
  create_tables w =
    if connected w
    then (Ok (), add_log [(INFO, MsgText "Tables created successfully")] w)
    else (Raise AttributeError,
          add_log [(ERROR, MsgFailed "create_tables" AttributeError)] w).
Proof. unfold create_tables, try_logged, info. by destruct (connected w). Qed.

Lemma finally_close_result {A : Type} (body : M A) (w : world) :
  (finally body close_connections w).1 = (body w).1.
Proof. unfold finally, close_connections, info. by destruct (body w) as [r w']. Qed.

Lemma bind_raises_result {A B : Type} (m : M A) (f : A → M B) (w : world) e :
  (m w).1 = Raise e → ((m ≫= f) w).1 = Raise e.
Proof. rewrite bind_run. destruct (m w) as [[a|e'] w1]; [done|]. by intros [= ->]. Qed.

(** The steps of [run_pipeline] up to the loader, when the store can be
    reached and the source is a table: the frame is a new object. *)
Lemma pipeline_prefix {B : Type} (k : nat → M B) (csv_path : pystr) (w : world)
    utf8 (table : DataFrame) :
  store_reachable w = true →
  files w !! csv_path = Some (Csv utf8 table) →
  ∃ w3,
    (info (MsgText "Starting data cleansing pipeline...");;
     connect_db;; create_tables;; df ← read_csv csv_path; k df) w
    = k (length (heap w)) w3
    ∧ frame_at w3 (length (heap w)) = table
    ∧ length (heap w3) = S (length (heap w))
    ∧ connected w3 = true
    ∧ data_table w3 = data_table w
    ∧ reject_table w3 = reject_table w
    ∧ target w3 = target w.
Proof.
  intros Hstore Hfile.
  rewrite bind_run. unfold info at 1.
  rewrite bind_run, connect_db_run. cbn [store_reachable add_log]. rewrite Hstore.
  rewrite bind_run, create_tables_run. cbn [connected add_log set_connected].
  rewrite bind_run.
  match goal with
  | |- context [read_csv csv_path ?w2] =>
      destruct (read_csv_table csv_path w2 utf8 table) as [msgs ->]; [exact Hfile|]
  end.
  eexists. split; [reflexivity|]. cbn.
  unfold frame_at. cbn. rewrite list_lookup_middle by done.
  rewrite length_app. cbn. split_and!; (done || lia).
Qed.

Lemma run_pipeline_steps (self : DataCleaner) (csv_path : pystr) :
  run_pipeline self csv_path
  = finally
      (try_logged "run_pipeline"
         (info (MsgText "Starting data cleansing pipeline...");;
          connect_db;; create_tables;;
          df ← read_csv csv_path; after_load self df))
      close_connections.
Proof. reflexivity. Qed.

Lemma run_pipeline_result (self : DataCleaner) (csv_path : pystr) (w : world) :
  (run_pipeline self csv_path w).1
  = ((info (MsgText "Starting data cleansing pipeline...");;
      connect_db;; create_tables;;
      df ← read_csv csv_path; after_load self df) w).1.
Proof. by rewrite run_pipeline_steps, finally_close_result, try_logged_result. Qed.

Lemma after_load_returns (self : DataCleaner) (df : nat) (w w' : world) r :
  after_load self df w = (Ok r, w') → r = RetNone.
Proof.
  unfold after_load. intros Hrun.
  apply bind_returns in Hrun as ([clean duplicate] & w1 & _ & Hrun).
  do 4 apply bind_returns in Hrun as (? & ? & _ & Hrun).
  by injection Hrun as <- _.
Qed.

Lemma normalized_has_lists (df : DataFrame) (mask : list bool) :
  has_column "genres" (select_rows mask (normalized df)) = true
  ∧ has_column "feat_track_ids" (select_rows mask (normalized df)) = true.
Proof.
  unfold has_column, select_rows, normalized, normalized_dtypes. cbn.
  split; apply bool_decide_eq_true_2.
  - rewrite lookup_insert_ne, lookup_insert_ne, lookup_insert_eq by done. eauto.
  - rewrite lookup_insert_ne, lookup_insert_eq by done. eauto.
Qed.

Lemma length_heap_cleaned (df : nat) (w : world) msgs :
  length (heap (cleaned df w msgs)) = S (S (length (heap w))).
Proof. unfold cleaned. cbn. rewrite length_app, length_insert. cbn. lia. Qed.

Lemma after_load_not_cleanable (self : DataCleaner) (df : nat) (w : world) :
  (df < length (heap w))%nat →
  cleanable (frame_at w df) = false →
  ∃ e, (after_load self df w).1 = Raise e.
Proof.
  intros Hdf Hc.
  destruct (clean_data_not_cleanable df w Hdf Hc) as (e & w' & Hrun).
  exists e. unfold after_load. apply bind_raises_result. by rewrite Hrun.
Qed.

Lemma insert_outcome_cleaned (df : nat) (w : world) msgs :
  insert_outcome (frame_at (cleaned df w msgs) (length (heap w))) (cleaned df w msgs)
  = if connected w then
      if accepts (data_table w) (partition ids_of (rows (normalized (frame_at w df)))).1
      then Ok () else Raise IntegrityError
    else Raise OperationalError.
Proof.
  unfold insert_outcome.
  change (connected (cleaned df w msgs)) with (connected w).
  change (data_table (cleaned df w msgs)) with (data_table w).
  destruct (connected w); [|done].
  pose proof (f_equal fst (cleaned_partition df w msgs)) as Hclean.
  cbn [fst] in Hclean. rewrite <- Hclean.
  by rewrite (accepts_keys _ _ _ (ids_of_stringified _)).
Qed.

Lemma after_load_rejected (self : DataCleaner) (df : nat) (w : world) :
  (df < length (heap w))%nat →
  cleanable (frame_at w df) = true →
  connected w = true →
  accepts (data_table w) (partition ids_of (rows (normalized (frame_at w df)))).1
  = false →
  (after_load self df w).1 = Raise IntegrityError.
Proof.
  intros Hdf Hc Hconn Hacc.
  destruct (clean_data_cleanable df w Hdf Hc) as [msgs Hrun].
  unfold after_load. rewrite bind_run, Hrun.
  apply bind_raises_result.
  pose proof (length_heap_cleaned df w msgs) as Hlen.
  destruct (insert_to_database_run (length (heap w)) (S (length (heap w)))
              (cleaned df w msgs)) as (w' & Hins & _); try lia.
  - rewrite frame_at_cleaned_clean. apply normalized_has_lists.
  - rewrite frame_at_cleaned_clean. apply normalized_has_lists.
  - rewrite frame_at_cleaned_duplicate. apply normalized_has_lists.
  - rewrite frame_at_cleaned_duplicate. apply normalized_has_lists.
  - rewrite Hins, insert_outcome_cleaned, Hconn, Hacc. done.
Qed.

Lemma required_column_absent (df : DataFrame) (c : string) :
  c ∈ required_columns → has_column c df = false → cleanable df = false.
Proof.
  unfold required_columns, cleanable. intros Hc Habsent.
  repeat (apply elem_of_cons in Hc as [->|Hc]);
    [..|by apply elem_of_nil in Hc];
    rewrite ?Habsent, ?andb_false_r; try done.
  assert (bool_decide (dtypes df !! "names"%string = Some DObject) = false) as ->.
  { apply bool_decide_eq_false_2. apply has_column_false in Habsent. congruence. }
  by rewrite ?andb_false_r.
Qed.

End DriverFacts.

(** C3, as the code has it. [run_pipeline] takes the source path (the
    run token is given to the constructor) and returns nothing: when it
    returns its value is [None], the counts being logged only.  It
    raises when the store cannot be reached, when the source file is
    missing, when one of the columns [clean_data] reads is absent from
    the source, and when the store rejects the clean rows. *)
Theorem run_pipeline_outcomes `{PyLib} (self : DataCleaner) (csv_path : pystr)
    (w : world) :
  (∀ r w', run_pipeline self csv_path w = (Ok r, w') → r = RetNone)
  ∧ (store_reachable w = false →
       (run_pipeline self csv_path w).1 = Raise OperationalError)
  ∧ (store_reachable w = true → files w !! csv_path = None →
       (run_pipeline self csv_path w).1 = Raise FileNotFoundError)
  ∧ (∀ utf8 table c,
       files w !! csv_path = Some (Csv utf8 table) →
       c ∈ required_columns → has_column c table = false →
       ∃ e, (run_pipeline self csv_path w).1 = Raise e)
  ∧ (∀ utf8 table,
       store_reachable w = true →
       files w !! csv_path = Some (Csv utf8 table) →
       cleanable table = true →
       accepts (data_table w) (partition ids_of (rows (normalized table))).1 = false →
       (run_pipeline self csv_path w).1 = Raise IntegrityError).
Proof.
  assert (store_reachable w = false →
          (run_pipeline self csv_path w).1 = Raise OperationalError) as Hdown.
  { intros Hstore. rewrite run_pipeline_result.
    rewrite bind_run. unfold info at 1. apply bind_raises_result.
    rewrite connect_db_run. cbn [store_reachable add_log]. by rewrite Hstore. }
  split_and!; [|exact Hdown|..].
  - intros r w' Hrun. rewrite run_pipeline_steps in Hrun.
    unfold finally in Hrun.
    destruct (try_logged _ _ w) as [r0 w0] eqn:Hbody.
    unfold close_connections, info in Hrun. injection Hrun as -> _.
    apply try_logged_returns in Hbody.
    do 4 apply bind_returns in Hbody as (? & ? & _ & Hbody).
    by apply after_load_returns in Hbody.
  - intros Hstore Hfile. rewrite run_pipeline_result.
    rewrite bind_run. unfold info at 1.
    rewrite bind_run, connect_db_run. cbn [store_reachable add_log]. rewrite Hstore.
    rewrite bind_run, create_tables_run. cbn [connected add_log set_connected].
    apply bind_raises_result. unfold read_csv. cbn [files add_log set_connected].
    by rewrite Hfile.
  - intros utf8 table c Hfile Hc Habsent.
    destruct (store_reachable w) eqn:Hstore; [|eexists; by apply Hdown].
    rewrite run_pipeline_result.
    destruct (pipeline_prefix (after_load self) csv_path w utf8 table Hstore Hfile)
      as (w3 & -> & Hframe & Hlen & _).
    apply after_load_not_cleanable; [lia|].
    rewrite Hframe. by apply (required_column_absent _ c).
  - intros utf8 table Hstore Hfile Hc Hacc.
    rewrite run_pipeline_result.
    destruct (pipeline_prefix (after_load self) csv_path w utf8 table Hstore Hfile)
      as (w3 & -> & Hframe & Hlen & Hconn & Hdata & _).
    apply after_load_rejected; [lia|by rewrite Hframe|done|].
    by rewrite Hframe, Hdata.
Qed.

Lemma run_pipeline_outcomes_witness :
  (@run_pipeline Sample.lib Example.cleaner Example.csv_path Example.first_run).1
  = Ok RetNone
  ∧ (@run_pipeline Sample.lib Example.cleaner Example.csv_path Example.store_down).1
    = Raise OperationalError
  ∧ (@run_pipeline Sample.lib Example.cleaner Example.csv_path Example.no_source).1
    = Raise FileNotFoundError
  ∧ (∃ e, (@run_pipeline Sample.lib Example.cleaner Example.csv_path
             Example.genres_missing).1 = Raise e)
  ∧ (@run_pipeline Sample.lib Example.cleaner Example.csv_path Example.second_run).1
    = Raise IntegrityError.
Proof.
  split_and!.
  - destruct (@run_pipeline Sample.lib Example.cleaner Example.csv_path
                Example.first_run) as [[r|e] w'] eqn:Hrun;
      [|by vm_compute in Hrun].
    cbn [fst]. f_equal.
    apply (proj1 (@run_pipeline_outcomes Sample.lib Example.cleaner Example.csv_path
                    Example.first_run) r w' Hrun).
  - apply (proj1 (proj2 (@run_pipeline_outcomes Sample.lib Example.cleaner
                           Example.csv_path Example.store_down))).
    reflexivity.
  - apply (proj1 (proj2 (proj2 (@run_pipeline_outcomes Sample.lib Example.cleaner
                                  Example.csv_path Example.no_source))));
      reflexivity.
  - apply (proj1 (proj2 (proj2 (proj2 (@run_pipeline_outcomes Sample.lib
                                         Example.cleaner Example.csv_path
                                         Example.genres_missing))))
             true Example.without_genres "genres"%string).
    + reflexivity.
    + unfold required_columns. set_solver.
    + vm_compute. reflexivity.
  - apply (proj2 (proj2 (proj2 (proj2 (@run_pipeline_outcomes Sample.lib
                                         Example.cleaner Example.csv_path
                                         Example.second_run))))
             true Example.sample_df).
    + reflexivity.
    + reflexivity.
    + vm_compute. reflexivity.
    + vm_compute. reflexivity.
Defined.

(** C3, as stated, fails: a run that succeeds returns [None], not the
    pair of counts, which it only logs. *)
Lemma run_pipeline_returns_none :
  (@run_pipeline Sample.lib Example.cleaner Example.csv_path Example.first_run).1
  = Ok RetNone
  ∧ (INFO, MsgCleanRecords 2)
    ∈ logged (@run_pipeline Sample.lib Example.cleaner Example.csv_path
                Example.first_run).2
  ∧ (INFO, MsgDuplicateRecords 1)
    ∈ logged (@run_pipeline Sample.lib Example.cleaner Example.csv_path
                Example.first_run).2
  ∧ (@run_pipeline Sample.lib Example.cleaner Example.csv_path Example.first_run).1
    ≠ Ok (RetCounts 2 1).
Proof.
  split_and!.
  - vm_compute. reflexivity.
  - apply list_elem_of_In. vm_compute. repeat (first [left; reflexivity | right]).
  - apply list_elem_of_In. vm_compute. repeat (first [left; reflexivity | right]).
  - vm_compute. discriminate.
Qed.
